(** * Study-session backend: the explanation generator and the
      session/message service of [main.py], embedded in Rocq.

    Python [str] values are sequences of Unicode code points, so a string is
    a list of code points and [len] counts code points.  Python [int] is
    unbounded, hence [Z].  A [datetime] is an instant on the UTC time line,
    counted in microseconds, hence [Z] as well. *)

From Stdlib Require Import String Ascii ZArith NArith Bool Lia List.
From Stdlib Require Import Sorted Permutation.
Import ListNotations.

Set Implicit Arguments.

(** ** Python strings *)

Module PyStr.

Definition char := N.
Definition pystr := list char.

Definition newline : char := 10%N.
Definition backslash : ascii := ascii_of_nat 92.

(** A source literal.  The text between the quotes is written exactly as in
    the Python source; the only escape the program uses is backslash-n. *)
Fixpoint unescape (l : list ascii) : pystr :=
  match l with
  | [] => []
  | c :: r =>
      match r with
      | d :: r' =>
          if (Ascii.eqb c backslash && Ascii.eqb d "n"%char)%bool
          then newline :: unescape r'
          else N_of_ascii c :: unescape r
      | [] => [N_of_ascii c]
      end
  end.

Definition lit (s : string) : pystr := unescape (list_ascii_of_string s).

(** [len(s)] *)
Definition len (s : pystr) : Z := Z.of_nat (length s).

(** [s * n]: repetition; a count below one gives the empty string. *)
Definition str_mul (s : pystr) (n : Z) : pystr := concat (repeat s (Z.to_nat n)).

(** [sep.join(parts)] *)
Fixpoint join (sep : pystr) (parts : list pystr) : pystr :=
  match parts with
  | [] => []
  | x :: rest =>
      match rest with
      | [] => x
      | _ :: _ => x ++ sep ++ join sep rest
      end
  end.

(** [str.isspace] on one code point, as CPython's [Py_UNICODE_ISSPACE]: the
    ASCII table entries 0x09-0x0D, 0x1C-0x1F and 0x20, and the code points of
    bidirectional class WS, B or S or category Zs above them. *)
Definition isspace (c : char) : bool :=
  (((9 <=? c) && (c <=? 13)) || ((28 <=? c) && (c <=? 32))
   || (c =? 133) || (c =? 160) || (c =? 5760)
   || ((8192 <=? c) && (c <=? 8202))
   || (c =? 8232) || (c =? 8233) || (c =? 8239) || (c =? 8287)
   || (c =? 12288))%N%bool.

(** [s.lstrip()], [s.rstrip()], [s.strip()]: the left index moves right
    over white space, then the right index moves left over white space. *)
Fixpoint lstrip (s : pystr) : pystr :=
  match s with
  | [] => []
  | c :: r => if isspace c then lstrip r else s
  end.

Definition rstrip (s : pystr) : pystr := rev (lstrip (rev s)).

Definition strip (s : pystr) : pystr := rstrip (lstrip s).

Fixpoint starts_with (p s : pystr) : bool :=
  match p, s with
  | [], _ => true
  | _ :: _, [] => false
  | a :: p', b :: s' => (a =? b)%N && starts_with p' s'
  end.

End PyStr.

Import PyStr.

(** ** The built-in explainer *)

(** The list [sections] after the eight [append] calls. *)
Definition explanation_sections (topic_clean : pystr) : list pystr :=
  let sections : list pystr := [] in
  let sections := sections ++
    [lit "Quick summary\n- " ++ topic_clean ++ lit " in one sentence: [A clear, simple definition]."] in
  let sections := sections ++
    [lit "Key ideas\n- Concept 1: what it is and why it matters\n- Concept 2: how it connects\n- Concept 3: common pitfalls"] in
  let sections := sections ++
    [lit "Step-by-step breakdown\n1) Start with the core definition\n2) Build an intuitive picture\n3) Add the formal detail\n4) Work through a tiny example\n5) Check your understanding"] in
  let sections := sections ++
    [lit "Analogy\n- Imagine you're explaining it to a 10-year-old using a real-life story."] in
  let sections := sections ++
    [lit "Worked example\n- Problem: a small, realistic question about the topic\n- Solution: show the steps with 1-2 short calculations or bullet points"] in
  let sections := sections ++
    [lit "Common mistakes\n- Misunderstanding A\n- Misunderstanding B\n- Shortcut to avoid them"] in
  let sections := sections ++
    [lit "Rapid self-quiz\n- Q1: ...\n- Q2: ...\n- Q3: ...\n(Answer in your head first, then check with notes)"] in
  let sections := sections ++
    [lit "Mini study plan (20 minutes)\n- 5m: review summary + key ideas\n- 10m: do 2 tiny problems\n- 5m: reflect: what still feels fuzzy?"] in
  sections.

(** [header = f"Topic: {topic_clean}\n" + ("=" * (7 + len(topic_clean)))] *)
Definition explanation_header (topic_clean : pystr) : pystr :=
  (lit "Topic: " ++ topic_clean ++ lit "\n") ++ str_mul (lit "=") (7 + len topic_clean).

Definition generate_explanation (topic : pystr) : pystr :=
  let topic_clean := strip topic in
  let sections := explanation_sections topic_clean in
  let header := explanation_header topic_clean in
  let body := join (lit "\n\n") sections in
  header ++ lit "\n\n" ++ body.


(** ** Documents

    The program handles records as Python dicts, which keep the order in which
    keys were first set; the store holds the same documents. *)

Definition datetime := Z.
Definition ObjectId := N.

Inductive value : Type :=
| VStr (s : pystr)
| VDatetime (t : datetime)
| VObjectId (o : ObjectId).

Definition dict := list (string * value).

Fixpoint dict_get (k : string) (d : dict) : option value :=
  match d with
  | [] => None
  | (k', v) :: r => if String.eqb k k' then Some v else dict_get k r
  end.

(** [d[k] = v]: an existing key keeps its place, a new key goes last. *)
Fixpoint dict_set (k : string) (v : value) (d : dict) : dict :=
  match d with
  | [] => [(k, v)]
  | (k', v') :: r =>
      if String.eqb k k' then (k', v) :: r else (k', v') :: dict_set k v r
  end.

(** [d.pop(k)], the dict that is left. *)
Fixpoint dict_remove (k : string) (d : dict) : dict :=
  match d with
  | [] => []
  | (k', v') :: r => if String.eqb k k' then r else (k', v') :: dict_remove k r
  end.

Definition value_eqb (a b : value) : bool :=
  match a, b with
  | VStr s, VStr t => if list_eq_dec N.eq_dec s t then true else false
  | VDatetime s, VDatetime t => (s =? t)%Z
  | VObjectId s, VObjectId t => (s =? t)%N
  | _, _ => false
  end.

(** What the program takes from its libraries: [bson.ObjectId] and
    [datetime].  [oid_parse s] is [ObjectId(s)], [None] standing for
    [InvalidId]; [ObjectId.is_valid] is defined by bson as the success of
    that constructor. *)
Record Runtime : Type := {
  oid_parse : pystr -> option ObjectId;
  oid_str : ObjectId -> pystr;
  isoformat : datetime -> pystr;
  datetime_str : datetime -> pystr
}.

Definition is_valid (rt : Runtime) (s : pystr) : bool :=
  match oid_parse rt s with Some _ => true | None => false end.

(** [str(v)] *)
Definition py_str (rt : Runtime) (v : value) : pystr :=
  match v with
  | VStr s => s
  | VDatetime t => datetime_str rt t
  | VObjectId o => oid_str rt o
  end.

Definition to_str_id (rt : Runtime) (doc : dict) : dict :=
  let d := doc in
  let d :=
    match dict_get "_id" d with
    | Some v => dict_set "id" (VStr (py_str rt v)) (dict_remove "_id" d)
    | None => d
    end in
  map (fun kv : string * value =>
         match snd kv with
         | VDatetime t => (fst kv, VStr (isoformat rt t))
         | _ => kv
         end) d.

(** ** The store and the world around a request

    [db] is the module-level handle imported from [database]: [None] when the
    store is not configured.  The clock is the sequence of values that
    successive [datetime.now(timezone.utc)] calls return.  Every store call
    either completes or raises; [store_fails k] tells whether the [k]-th call
    raises (connection loss, a rejected write, ...), and [new_oid k] is the
    identifier the driver generates if that call is an insert. *)

Record Database : Type := {
  studysession : list dict;
  message : list dict
}.

Record World : Type := {
  db : option Database;
  utc_now : nat -> datetime;
  clock_reads : nat;
  store_fails : nat -> bool;
  new_oid : nat -> ObjectId;
  store_calls : nat
}.

Inductive exn : Type :=
| HTTPException (status_code : Z) (detail : pystr)
| RequestValidationError
| PyMongoError
| InvalidId
| KeyError
| TypeError.

Inductive outcome (A : Type) : Type :=
| Ok (a : A)
| Raise (e : exn).

Arguments Ok {A} a.
Arguments Raise {A} e.

Definition M (A : Type) : Type := World -> outcome A * World.

Definition ret {A} (a : A) : M A := fun w => (Ok a, w).

Definition bind {A B} (m : M A) (k : A -> M B) : M B :=
  fun w =>
    match m w with
    | (Ok a, w') => k a w'
    | (Raise e, w') => (Raise e, w')
    end.

Definition raise {A} (e : exn) : M A := fun w => (Raise e, w).

Definition lift {A} (o : outcome A) : M A := fun w => (o, w).

(** [try: m  except Exception: pass] *)
Definition try_pass (m : M unit) : M unit :=
  fun w =>
    match m w with
    | (Ok _, w') => (Ok tt, w')
    | (Raise _, w') => (Ok tt, w')
    end.

Notation "x <- m ;; k" := (bind m (fun x => k))
  (at level 61, m at next level, right associativity).
Notation "m ;;; k" := (bind m (fun _ => k))
  (at level 61, right associativity).

(** [datetime.now(timezone.utc)] *)
Definition now_utc : M datetime :=
  fun w =>
    (Ok (utc_now w (clock_reads w)),
     {| db := db w; utc_now := utc_now w; clock_reads := S (clock_reads w);
        store_fails := store_fails w; new_oid := new_oid w;
        store_calls := store_calls w |}).

(** One call into the store.  With [db] being [None] the subscript
    [db[...]] raises [TypeError]; the handlers rule that out first. *)
Definition store_call {A} (op : ObjectId -> Database -> A * Database) : M A :=
  fun w =>
    match db w with
    | None => (Raise TypeError, w)
    | Some d =>
        let k := store_calls w in
        if store_fails w k then
          (Raise PyMongoError,
           {| db := Some d; utc_now := utc_now w; clock_reads := clock_reads w;
              store_fails := store_fails w; new_oid := new_oid w;
              store_calls := S k |})
        else
          let (a, d') := op (new_oid w k) d in
          (Ok a,
           {| db := Some d'; utc_now := utc_now w; clock_reads := clock_reads w;
              store_fails := store_fails w; new_oid := new_oid w;
              store_calls := S k |})
    end.

(** [insert_one(doc)]: the driver adds a fresh [_id] to the caller's dict
    when it has none, and the store appends the document.  The dict the
    caller holds is that same object, so the call returns it. *)
Definition with_id (fresh : ObjectId) (doc : dict) : dict * value :=
  match dict_get "_id" doc with
  | Some id => (doc, id)
  | None => (dict_set "_id" (VObjectId fresh) doc, VObjectId fresh)
  end.

(** Both return the caller's dict as the call leaves it and [inserted_id]. *)
Definition insert_one_studysession (doc : dict) : M (dict * value) :=
  store_call (fun fresh d =>
    let r := with_id fresh doc in
    (r, {| studysession := studysession d ++ [fst r]; message := message d |})).

Definition insert_one_message (doc : dict) : M (dict * value) :=
  store_call (fun fresh d =>
    let r := with_id fresh doc in
    (r, {| studysession := studysession d; message := message d ++ [fst r] |})).

(** [update_one({"_id": oid}, {"$set": {k: v}})]: the first document with
    that [_id], if there is one. *)
Fixpoint set_first (oid : ObjectId) (k : string) (v : value) (c : list dict) : list dict :=
  match c with
  | [] => []
  | doc :: r =>
      match dict_get "_id" doc with
      | Some id =>
          if value_eqb id (VObjectId oid) then dict_set k v doc :: r
          else doc :: set_first oid k v r
      | None => doc :: set_first oid k v r
      end
  end.

Definition update_one_studysession (oid : ObjectId) (k : string) (v : value) : M unit :=
  store_call (fun _ d =>
    (tt, {| studysession := set_first oid k v (studysession d); message := message d |})).

(** [find(flt).sort(key, direction).limit(n)], run when the handler iterates
    the cursor.  Values compare in the store's order: a missing field first,
    then strings, identifiers, dates; documents with equal keys are taken to
    keep their stored order. *)
Definition bson_rank (v : option value) : Z :=
  match v with
  | None => 0
  | Some (VStr _) => 1
  | Some (VObjectId _) => 2
  | Some (VDatetime _) => 3
  end.

Fixpoint str_leb (a b : pystr) : bool :=
  match a, b with
  | [], _ => true
  | _ :: _, [] => false
  | x :: a', y :: b' =>
      if (x <? y)%N then true else if (y <? x)%N then false else str_leb a' b'
  end.

Definition bson_leb (a b : option value) : bool :=
  match a, b with
  | Some (VStr s), Some (VStr t) => str_leb s t
  | Some (VObjectId s), Some (VObjectId t) => (s <=? t)%N
  | Some (VDatetime s), Some (VDatetime t) => (s <=? t)%Z
  | _, _ => (bson_rank a <=? bson_rank b)%Z
  end.

Fixpoint insert_sorted (before : dict -> dict -> bool) (x : dict) (l : list dict) : list dict :=
  match l with
  | [] => [x]
  | y :: r => if before x y then x :: l else y :: insert_sorted before x r
  end.

Definition cursor_sort (key : string) (direction : Z) (l : list dict) : list dict :=
  let before x y :=
    if (0 <=? direction)%Z then bson_leb (dict_get key x) (dict_get key y)
    else bson_leb (dict_get key y) (dict_get key x) in
  fold_right (insert_sorted before) [] l.

(** [limit(n)]: zero means no limit, a negative count its absolute value. *)
Definition cursor_limit (n : Z) (l : list dict) : list dict :=
  if (n =? 0)%Z then l else firstn (Z.abs_nat n) l.

Definition find_studysession (flt : dict -> bool) (key : string) (direction n : Z)
  : M (list dict) :=
  store_call (fun _ d =>
    (cursor_limit n (cursor_sort key direction (filter flt (studysession d))), d)).

Definition find_message (flt : dict -> bool) (key : string) (direction n : Z)
  : M (list dict) :=
  store_call (fun _ d =>
    (cursor_limit n (cursor_sort key direction (filter flt (message d))), d)).

(** [{"session_id": session_id}] *)
Definition session_id_is (session_id : pystr) (doc : dict) : bool :=
  match dict_get "session_id" doc with
  | Some v => value_eqb v (VStr session_id)
  | None => false
  end.

(** ** Request models *)

Record CreateSessionRequest : Type := { title : pystr }.
Record PostMessageRequest : Type := { content : pystr }.

(** [title: str = Field(..., min_length=1, max_length=200)] *)
Definition CreateSessionRequest_validate (t : pystr) : outcome CreateSessionRequest :=
  if ((1 <=? len t) && (len t <=? 200))%Z then Ok {| title := t |}
  else Raise RequestValidationError.

(** [content: str = Field(..., min_length=1)] *)
Definition PostMessageRequest_validate (c : pystr) : outcome PostMessageRequest :=
  if (1 <=? len c)%Z then Ok {| content := c |}
  else Raise RequestValidationError.

(** ** Study tool API *)

(** [if db is None: raise HTTPException(status_code=500, ...)] *)
Definition require_db : M unit :=
  fun w =>
    match db w with
    | None => (Raise (HTTPException 500 (lit "Database not configured")), w)
    | Some _ => (Ok tt, w)
    end.

(** [d[k]] *)
Definition dict_index (k : string) (d : dict) : M value :=
  match dict_get k d with
  | Some v => ret v
  | None => raise KeyError
  end.

(** [ObjectId(s)] *)
Definition ObjectId_of (rt : Runtime) (s : pystr) : M ObjectId :=
  match oid_parse rt s with
  | Some o => ret o
  | None => raise InvalidId
  end.

Definition create_session (rt : Runtime) (req : CreateSessionRequest) : M dict :=
  require_db ;;;
  now <- now_utc ;;
  let data : dict :=
    [("title", VStr (strip (title req)));
     ("created_at", VDatetime now);
     ("updated_at", VDatetime now)]%string in
  ins <- insert_one_studysession data ;;
  let data := fst ins in
  let inserted_id := snd ins in
  t <- dict_index "title" data ;;
  ret [("id", VStr (py_str rt inserted_id)); ("title", t)]%string.

Definition list_sessions (rt : Runtime) (limit : option Z) : M (list dict) :=
  let limit := match limit with Some n => n | None => 20%Z end in
  require_db ;;;
  items <- find_studysession (fun _ => true) "updated_at" (-1)
             (Z.max 1 (Z.min limit 100)) ;;
  ret (map (to_str_id rt) items).

Definition get_messages (rt : Runtime) (session_id : pystr) (limit : option Z)
  : M (list dict) :=
  let limit := match limit with Some n => n | None => 100%Z end in
  require_db ;;;
  cursor <- find_message (session_id_is session_id) "created_at" 1
              (Z.max 1 (Z.min limit 500)) ;;
  ret (map (to_str_id rt) cursor).

(** The [try] block of [post_message]. *)
Definition touch_session (rt : Runtime) (session_id : pystr) : M unit :=
  try_pass
    (if is_valid rt session_id then
       oid <- ObjectId_of rt session_id ;;
       t <- now_utc ;;
       update_one_studysession oid "updated_at" (VDatetime t)
     else ret tt).

(** Returns the list under the key [messages] of the response. *)
Definition post_message (rt : Runtime) (session_id : pystr) (req : PostMessageRequest)
  : M (list dict) :=
  require_db ;;;
  now <- now_utc ;;
  let user_msg : dict :=
    [("session_id", VStr session_id);
     ("role", VStr (lit "user"));
     ("content", VStr (strip (content req)));
     ("created_at", VDatetime now);
     ("updated_at", VDatetime now)]%string in
  ins <- insert_one_message user_msg ;;
  let user_msg := fst ins in
  let assistant_text := generate_explanation (content req) in
  created <- now_utc ;;
  updated <- now_utc ;;
  let asst_msg : dict :=
    [("session_id", VStr session_id);
     ("role", VStr (lit "assistant"));
     ("content", VStr assistant_text);
     ("created_at", VDatetime created);
     ("updated_at", VDatetime updated)]%string in
  ins <- insert_one_message asst_msg ;;
  let asst_msg := fst ins in
  touch_session rt session_id ;;;
  ret [to_str_id rt user_msg; to_str_id rt asst_msg].

(** The routes: the framework builds the request model from the body, and
    calls the handler only when that validation succeeds. *)
Definition api_create_session (rt : Runtime) (t : pystr) : M dict :=
  req <- lift (CreateSessionRequest_validate t) ;;
  create_session rt req.

Definition api_post_message (rt : Runtime) (session_id c : pystr) : M (list dict) :=
  req <- lift (PostMessageRequest_validate c) ;;
  post_message rt session_id req.

(** The message collection as a caller of the store sees it. *)
Definition messages_of (w : World) : list dict :=
  match db w with
  | Some d => message d
  | None => []
  end.

Definition sessions_of (w : World) : list dict :=
  match db w with
  | Some d => studysession d
  | None => []
  end.


(** ** The header and the section titles as the specification words them *)

Definition equals_sign : char := 61%N.

(** The text [Topic: t], a line break, and a run of [7 + length t] equals
    signs. *)
Definition header_text (t : pystr) : pystr :=
  lit "Topic: " ++ t ++ [newline] ++ repeat equals_sign (7 + length t).

(** Two line breaks in a row somewhere in [s]. *)
Fixpoint has_blank_line (s : pystr) : bool :=
  match s with
  | [] => false
  | c :: r =>
      match r with
      | d :: _ => ((c =? newline)%N && (d =? newline)%N) || has_blank_line r
      | [] => false
      end
  end.

(** ** The service's guarantees, as predicates on one call *)

(** The two documents [post_message] hands to the store, as the store keeps
    them. *)
Definition user_doc (sid c : pystr) (t : datetime) (id : ObjectId) : dict :=
  [("session_id", VStr sid); ("role", VStr (lit "user"));
   ("content", VStr (strip c));
   ("created_at", VDatetime t); ("updated_at", VDatetime t);
   ("_id", VObjectId id)]%string.

Definition asst_doc (sid c : pystr) (t1 t2 : datetime) (id : ObjectId) : dict :=
  [("session_id", VStr sid); ("role", VStr (lit "assistant"));
   ("content", VStr (generate_explanation c));
   ("created_at", VDatetime t1); ("updated_at", VDatetime t2);
   ("_id", VObjectId id)]%string.

Definition is_ok {A} (o : outcome A) : bool :=
  match o with
  | Ok _ => true
  | Raise _ => false
  end.

(** The call goes through: the framework accepts the body and the handler
    returns a response. *)
Definition accepted (rt : Runtime) (session_id c : pystr) (w : World) : bool :=
  is_ok (fst (api_post_message rt session_id c w)).


(** ** Fixtures for the worked examples

    A runtime whose identifiers are 24 hexadecimal digits, and whose dates
    print as their microsecond count; a clock that advances by one
    microsecond per reading. *)

Definition hex_digit (c : char) : option N :=
  if ((48 <=? c) && (c <=? 57))%N then Some (c - 48)%N
  else if ((97 <=? c) && (c <=? 102))%N then Some (c - 87)%N
  else if ((65 <=? c) && (c <=? 70))%N then Some (c - 55)%N
  else None.

Fixpoint hex_value (acc : N) (s : pystr) : option N :=
  match s with
  | [] => Some acc
  | c :: r =>
      match hex_digit c with
      | Some v => hex_value (16 * acc + v)%N r
      | None => None
      end
  end.

Fixpoint digits (base : N) (width : nat) (n : N) (acc : pystr) : pystr :=
  match width with
  | O => acc
  | S k =>
      let v := (n mod base)%N in
      digits base k (n / base)%N ((if (v <? 10)%N then 48 + v else 87 + v)%N :: acc)
  end.

Definition example_runtime : Runtime :=
  {| oid_parse := fun s => if (length s =? 24)%nat then hex_value 0 s else None;
     oid_str := fun o => digits 16 24 o [];
     isoformat := fun t => digits 10 16 (Z.to_N t) [];
     datetime_str := fun t => digits 10 16 (Z.to_N t) [] |}.

Definition ticking_clock (n : nat) : datetime := (Z.of_nat n + 1700000000000000)%Z.

Definition world_unconfigured : World :=
  {| db := None;
     utc_now := ticking_clock; clock_reads := 0;
     store_fails := fun _ => false;
     new_oid := fun k => N.of_nat (S k); store_calls := 0 |}.

Definition world_empty : World :=
  {| db := Some {| studysession := []; message := [] |};
     utc_now := ticking_clock; clock_reads := 0;
     store_fails := fun _ => false;
     new_oid := fun k => N.of_nat (S k); store_calls := 0 |}.

Definition example_session_id : pystr := lit "64b7f0c2a1d3e4f5a6b7c8d9".

(** A store that holds no session and rejects the third call made to it,
    which for [post_message] is the touch of the session. *)
Definition world_touch_fails : World :=
  {| db := Some {| studysession := []; message := [] |};
     utc_now := ticking_clock; clock_reads := 0;
     store_fails := fun k => Nat.eqb k 2;
     new_oid := fun k => N.of_nat (S k); store_calls := 0 |}.

(** A world with history: one stored message, a session, a clock that
    stands still, and seven store calls already made. *)
Definition world_busy : World :=
  {| db := Some {| studysession :=
                     [[("title", VStr (lit "Thermodynamics"));
                       ("created_at", VDatetime 5%Z); ("updated_at", VDatetime 5%Z);
                       ("_id", VObjectId 9%N)]%string];
                   message :=
                     [[("session_id", VStr (lit "other"));
                       ("role", VStr (lit "user"));
                       ("content", VStr (lit "heat"));
                       ("created_at", VDatetime 6%Z); ("updated_at", VDatetime 6%Z);
                       ("_id", VObjectId 10%N)]%string] |};
     utc_now := fun _ => 42%Z; clock_reads := 3;
     store_fails := fun _ => false;
     new_oid := fun k => N.of_nat (100 + k); store_calls := 7 |}.

(** ** The diagnostic endpoint

    What [test_database] reads besides the store: the process environment,
    the [name] attribute of the handle ([None] when [hasattr] says there is
    none), the listing the store gives for its collections, and the text
    [str(e)] of the exception a failed listing raises. *)

Record Process : Type := {
  getenv : string -> option pystr;
  db_name : option pystr;
  collection_names : list pystr;
  error_text : pystr
}.

(** The response dict; its six keys are all set in the first statement. *)
Record Diagnostics : Type := {
  backend : pystr;
  database : pystr;
  database_url : option pystr;
  database_name : option pystr;
  connection_status : pystr;
  collections : list pystr
}.

(** The three signs of the status texts, as code points: U+2705, U+274C, and
    U+26A0 followed by the variation selector U+FE0F. *)
Definition check_mark : pystr := [9989%N].
Definition cross_mark : pystr := [10060%N].
Definition warning_sign : pystr := [9888%N; 65039%N].

(** Truth value of what [os.getenv] returns: [None] and the empty string
    are false. *)
Definition truthy (v : option pystr) : bool :=
  match v with
  | Some (_ :: _) => true
  | _ => false
  end.

Definition set_database (v : pystr) (r : Diagnostics) : Diagnostics :=
  {| backend := backend r; database := v; database_url := database_url r;
     database_name := database_name r; connection_status := connection_status r;
     collections := collections r |}.

Definition set_database_url (v : pystr) (r : Diagnostics) : Diagnostics :=
  {| backend := backend r; database := database r; database_url := Some v;
     database_name := database_name r; connection_status := connection_status r;
     collections := collections r |}.

Definition set_database_name (v : pystr) (r : Diagnostics) : Diagnostics :=
  {| backend := backend r; database := database r; database_url := database_url r;
     database_name := Some v; connection_status := connection_status r;
     collections := collections r |}.

Definition set_connection_status (v : pystr) (r : Diagnostics) : Diagnostics :=
  {| backend := backend r; database := database r; database_url := database_url r;
     database_name := database_name r; connection_status := v;
     collections := collections r |}.

Definition set_collections (v : list pystr) (r : Diagnostics) : Diagnostics :=
  {| backend := backend r; database := database r; database_url := database_url r;
     database_name := database_name r; connection_status := connection_status r;
     collections := v |}.

(** [db.list_collection_names()] *)
Definition list_collection_names (p : Process) : M (list pystr) :=
  store_call (fun _ d => (collection_names p, d)).

(** Nothing in the outer [try] raises outside the inner one, so the outer
    handler has no run of its own. *)
Definition test_database (p : Process) : M Diagnostics :=
  fun w =>
    let response :=
      {| backend := check_mark ++ lit " Running";
         database := cross_mark ++ lit " Not Available";
         database_url := None;
         database_name := None;
         connection_status := lit "Not Connected";
         collections := [] |} in
    let '(response, w) :=
      match db w with
      | Some _ =>
          let response := set_database (check_mark ++ lit " Available") response in
          let response := set_database_url (check_mark ++ lit " Configured") response in
          let response :=
            set_database_name
              (match db_name p with
               | Some n => n
               | None => check_mark ++ lit " Connected"
               end) response in
          let response := set_connection_status (lit "Connected") response in
          match list_collection_names p w with
          | (Ok names, w') =>
              let response := set_collections (firstn 10 names) response in
              let response :=
                set_database (check_mark ++ lit " Connected & Working") response in
              (response, w')
          | (Raise _, w') =>
              (set_database
                 (warning_sign ++ lit "  Connected but Error: " ++
                  firstn 50 (error_text p)) response, w')
          end
      | None =>
          (set_database (warning_sign ++ lit "  Available but not initialized")
             response, w)
      end in
    let response :=
      set_database_url
        (if truthy (getenv p "DATABASE_URL") then check_mark ++ lit " Set"
         else cross_mark ++ lit " Not Set") response in
    let response :=
      set_database_name
        (if truthy (getenv p "DATABASE_NAME") then check_mark ++ lit " Set"
         else cross_mark ++ lit " Not Set") response in
    (Ok response, w).

(** ** Further predicates for the statements *)

(** What [to_str_id] does to one value that is not the store identifier. *)
Definition rendered (rt : Runtime) (v : value) : value :=
  match v with
  | VDatetime t => VStr (isoformat rt t)
  | _ => v
  end.

(** The function [to_str_id] maps over the entries. *)
Definition render_entry (rt : Runtime) (kv : string * value) : string * value :=
  match snd kv with
  | VDatetime t => (fst kv, VStr (isoformat rt t))
  | _ => kv
  end.

Definition keys (d : dict) : list string := map fst d.

(** No white space at the left end, none at the right end. *)
Definition no_leading_space (s : pystr) : Prop :=
  match s with
  | [] => True
  | c :: _ => isspace c = false
  end.

Definition trimmed (s : pystr) : Prop :=
  no_leading_space s /\ no_leading_space (rev s).

(** The order of a sorted cursor on one key. *)
Definition ascending (key : string) (x y : dict) : Prop :=
  bson_leb (dict_get key x) (dict_get key y) = true.

Definition descending (key : string) (x y : dict) : Prop :=
  bson_leb (dict_get key y) (dict_get key x) = true.

(** A relation between the world before and after holds for every run of
    a computation, whatever its outcome. *)
Definition keeps {A} (R : World -> World -> Prop) (m : M A) : Prop :=
  forall w : World, R w (snd (m w)).

(** Stored messages stay, in place and unchanged; more may follow them. *)
Definition messages_grow (w w' : World) : Prop :=
  exists added : list dict, messages_of w' = messages_of w ++ added.

(** The sessions are the same in number and order, and agree on every field
    but [updated_at]. *)
Definition sessions_keep_shape (w w' : World) : Prop :=
  forall k : string, k <> "updated_at"%string ->
    map (dict_get k) (sessions_of w') = map (dict_get k) (sessions_of w).

Definition store_unchanged (w w' : World) : Prop := db w' = db w.

(** The order a comparison function decides. *)
Definition ordered_by (before : dict -> dict -> bool) (x y : dict) : Prop :=
  before x y = true.

(** The error of the guard that opens the four handlers. *)
Definition not_configured : exn :=
  HTTPException 500 (lit "Database not configured").

(** The session document [create_session] hands to the store, as kept. *)
Definition session_doc (t : pystr) (now : datetime) (id : ObjectId) : dict :=
  [("title", VStr (strip t));
   ("created_at", VDatetime now); ("updated_at", VDatetime now);
   ("_id", VObjectId id)]%string.

(** A store that is configured and rejects every call. *)
Definition world_store_down : World :=
  {| db := Some {| studysession := []; message := [] |};
     utc_now := ticking_clock; clock_reads := 0;
     store_fails := fun _ => true;
     new_oid := fun k => N.of_nat (S k); store_calls := 0 |}.

Definition example_process : Process :=
  {| getenv := fun k => if String.eqb k "DATABASE_URL"
                        then Some (lit "mongodb://localhost:27017") else None;
     db_name := Some (lit "study");
     collection_names :=
       map (fun n => digits 10 2 (N.of_nat n) []) (seq 0 12);
     error_text := str_mul (lit "connection refused; ") 5 |}.

(** * Properties *)

Example lit_newline : lit "a\nb" = [97; 10; 98]%N.
Proof. reflexivity. Qed.

Example strip_both_ends : strip (lit "  entropy \n") = lit "entropy".
Proof. reflexivity. Qed.

Example explanation_begins :
  starts_with (lit "Topic: entropy\n==============\n\nQuick summary\n- entropy in one sentence")
              (generate_explanation (lit "entropy")) = true.
Proof. vm_compute. reflexivity. Qed.

(** ** Stripping *)

Lemma lstrip_idempotent (s : pystr) : lstrip (lstrip s) = lstrip s.
Proof.
  induction s as [|c r IH]; simpl; [reflexivity|].
  destruct (isspace c) eqn:E; [exact IH|].
  simpl. now rewrite E.
Qed.

Lemma lstrip_app (u v : pystr) :
  lstrip (u ++ v) =
  match lstrip u with
  | [] => lstrip v
  | _ :: _ => lstrip u ++ v
  end.
Proof.
  induction u as [|c r IH]; simpl; [reflexivity|].
  destruct (isspace c); [exact IH | reflexivity].
Qed.

Lemma rstrip_cons (c : char) (r : pystr) :
  rstrip (c :: r) =
  match rstrip r with
  | [] => if isspace c then [] else [c]
  | _ :: _ => c :: rstrip r
  end.
Proof.
  unfold rstrip. simpl rev. rewrite lstrip_app.
  destruct (lstrip (rev r)) as [|x xs] eqn:E.
  - simpl. destruct (isspace c); reflexivity.
  - rewrite rev_app_distr. change (rev [c]) with [c].
    remember (rev (x :: xs)) as y eqn:R.
    destruct y; [|reflexivity].
    apply (f_equal (@length _)) in R. rewrite length_rev in R. discriminate.
Qed.

Lemma rstrip_idempotent (s : pystr) : rstrip (rstrip s) = rstrip s.
Proof.
  unfold rstrip. now rewrite rev_involutive, lstrip_idempotent.
Qed.

Lemma lstrip_rstrip_lstrip (s : pystr) :
  lstrip (rstrip (lstrip s)) = rstrip (lstrip s).
Proof.
  induction s as [|c r IH]; [reflexivity|].
  simpl lstrip. destruct (isspace c) eqn:E; [exact IH|].
  rewrite rstrip_cons.
  destruct (rstrip r); rewrite ?E; simpl; rewrite ?E; reflexivity.
Qed.

Lemma strip_idempotent (s : pystr) : strip (strip s) = strip s.
Proof.
  unfold strip. now rewrite lstrip_rstrip_lstrip, rstrip_idempotent.
Qed.

Lemma lstrip_length (s : pystr) : (length (lstrip s) <= length s)%nat.
Proof.
  induction s as [|c r IH]; simpl; [lia|].
  destruct (isspace c); simpl; lia.
Qed.

Lemma strip_length (s : pystr) : (length (strip s) <= length s)%nat.
Proof.
  unfold strip, rstrip. rewrite length_rev.
  etransitivity; [apply lstrip_length|]. rewrite length_rev. apply lstrip_length.
Qed.

(** ** The explanation generator *)

Lemma str_mul_char (c : char) (n : nat) (k : Z) :
  (k = Z.of_nat n)%Z -> str_mul [c] k = repeat c n.
Proof.
  intros ->. unfold str_mul. rewrite Nat2Z.id.
  induction n as [|n IH]; simpl; [reflexivity | now rewrite IH].
Qed.

Lemma explanation_header_text (t : pystr) : explanation_header t = header_text t.
Proof.
  unfold explanation_header, header_text.
  rewrite (@str_mul_char equals_sign (7 + length t)).
  - now rewrite <- !app_assoc.
  - unfold len. lia.
Qed.

Lemma generate_explanation_unfold (topic : pystr) :
  generate_explanation topic =
  header_text (strip topic) ++ lit "\n\n" ++
  join (lit "\n\n") (explanation_sections (strip topic)).
Proof.
  unfold generate_explanation. now rewrite explanation_header_text.
Qed.

(** C5, as amended: for every input string [topic], the output begins with
    the line [Topic: ] followed by the stripped topic, then a line of equals
    signs whose length is 7 plus the length of the stripped topic, then a
    blank line. *)
Theorem generate_explanation_header (topic : pystr) :
  exists rest : pystr,
    generate_explanation topic =
    (lit "Topic: " ++ strip topic ++ [newline]) ++
    repeat equals_sign (7 + length (strip topic)) ++
    [newline; newline] ++ rest.
Proof.
  exists (join (lit "\n\n") (explanation_sections (strip topic))).
  rewrite generate_explanation_unfold. unfold header_text.
  now rewrite <- !app_assoc.
Qed.

(** C5, as stated, fails when the topic carries surrounding white space:
    for the topic made of a space and the letter a, the output does not begin
    with [Topic: ], that topic, and a line of 7 + 2 equals signs. *)
Lemma header_of_unstripped_topic_differs :
  ~ (exists rest : pystr,
       generate_explanation (lit " a") = header_text (lit " a") ++ rest).
Proof.
  intros [rest H]. vm_compute in H. discriminate H.
Qed.

(** C6: the output is the header, a blank line, and eight sections in the
    order Quick summary, Key ideas, Step-by-step breakdown, Analogy, Worked
    example, Common mistakes, Rapid self-quiz, Mini study plan, joined by
    blank lines; the seven sections after the first are fixed texts, and the
    stripped topic appears only in the header and in the summary line. *)
Theorem generate_explanation_layout :
  exists k2 k3 k4 k5 k6 k7 k8 : pystr,
    (starts_with (lit "Key ideas\n") k2 = true /\
     starts_with (lit "Step-by-step breakdown\n") k3 = true /\
     starts_with (lit "Analogy\n") k4 = true /\
     starts_with (lit "Worked example\n") k5 = true /\
     starts_with (lit "Common mistakes\n") k6 = true /\
     starts_with (lit "Rapid self-quiz\n") k7 = true /\
     starts_with (lit "Mini study plan") k8 = true) /\
    existsb has_blank_line [k2; k3; k4; k5; k6; k7; k8] = false /\
    forall topic : pystr,
      let t := strip topic in
      explanation_sections t =
        [lit "Quick summary\n- " ++ t ++ lit " in one sentence: [A clear, simple definition].";
         k2; k3; k4; k5; k6; k7; k8] /\
      generate_explanation topic =
        header_text t ++ lit "\n\n" ++
        (lit "Quick summary\n- " ++ t ++ lit " in one sentence: [A clear, simple definition].") ++
        lit "\n\n" ++ k2 ++ lit "\n\n" ++ k3 ++ lit "\n\n" ++ k4 ++ lit "\n\n" ++ k5 ++
        lit "\n\n" ++ k6 ++ lit "\n\n" ++ k7 ++ lit "\n\n" ++ k8.
Proof.
  pose (fixed := explanation_sections []).
  exists (nth 1 fixed []), (nth 2 fixed []), (nth 3 fixed []), (nth 4 fixed []),
         (nth 5 fixed []), (nth 6 fixed []), (nth 7 fixed []).
  split; [vm_compute; repeat split; reflexivity|].
  split; [vm_compute; reflexivity|].
  intros topic t. subst fixed. split.
  - cbv [explanation_sections nth app]. reflexivity.
  - rewrite generate_explanation_unfold.
    cbv [explanation_sections nth app join]. reflexivity.
Qed.

(** The generator strips its argument itself, so stripping it beforehand
    changes nothing. *)
Lemma generate_explanation_strip (topic : pystr) :
  generate_explanation topic = generate_explanation (strip topic).
Proof.
  unfold generate_explanation. now rewrite strip_idempotent.
Qed.

(** ** The message service *)

Section Service.

Variable rt : Runtime.

Lemma touch_session_swallows (sid : pystr) (w : World) :
  exists w',
    touch_session rt sid w = (Ok tt, w') /\
    messages_of w' = messages_of w /\
    utc_now w' = utc_now w /\
    store_calls w' =
      (if is_valid rt sid then
         match db w with Some _ => S (store_calls w) | None => store_calls w end
       else store_calls w) /\
    (is_valid rt sid = false -> w' = w).
Proof.
  unfold touch_session, try_pass, is_valid, ObjectId_of.
  destruct (oid_parse rt sid) as [oid|].
  - unfold bind, ret, now_utc, update_one_studysession, store_call, messages_of.
    destruct w as [dbh clock reads fails oids calls]; simpl.
    destruct dbh as [d|]; simpl.
    + destruct (fails calls); simpl; eexists; repeat split; try reflexivity;
        discriminate.
    + eexists; repeat split; try reflexivity; discriminate.
  - exists w. repeat split; reflexivity.
Qed.

Lemma post_message_run (sid : pystr) (req : PostMessageRequest) (w : World) (d : Database) :
  db w = Some d ->
  store_fails w (store_calls w) = false ->
  store_fails w (S (store_calls w)) = false ->
  let k := store_calls w in
  let n := clock_reads w in
  let u := user_doc sid (content req) (utc_now w n) (new_oid w k) in
  let a := asst_doc sid (content req) (utc_now w (S n)) (utc_now w (S (S n)))
             (new_oid w (S k)) in
  exists w',
    post_message rt sid req w = (Ok [to_str_id rt u; to_str_id rt a], w') /\
    messages_of w' = message d ++ [u; a] /\
    store_calls w' = (if is_valid rt sid then 3 + k else 2 + k)%nat /\
    (is_valid rt sid = false -> sessions_of w' = studysession d).
Proof.
  intros Hdb F1 F2 k n u a.
  destruct w as [dbh clock reads fails oids calls]; simpl in *.
  subst dbh k n.
  unfold post_message, bind, require_db, now_utc, insert_one_message, store_call, ret.
  simpl. rewrite F1. simpl. rewrite F2. simpl.
  match goal with
  | |- context [touch_session rt sid ?w0] =>
      destruct (touch_session_swallows sid w0) as (w' & Ht & Hm & _ & Hc & Hs);
      rewrite Ht
  end.
  exists w'. simpl in *.
  split; [reflexivity|]. split; [|split].
  - rewrite Hm. unfold messages_of. simpl. rewrite <- app_assoc. reflexivity.
  - rewrite Hc. destruct (is_valid rt sid); reflexivity.
  - intros Hv. rewrite (Hs Hv). reflexivity.
Qed.

Lemma api_post_message_valid (sid c : pystr) (w : World) :
  (1 <= len c)%Z ->
  api_post_message rt sid c w = post_message rt sid {| content := c |} w.
Proof.
  intros H. unfold api_post_message, PostMessageRequest_validate, bind, lift.
  destruct (Z.leb_spec 1 (len c)); [reflexivity | lia].
Qed.

Lemma api_post_message_invalid (sid c : pystr) (w : World) :
  (len c < 1)%Z ->
  api_post_message rt sid c w = (Raise RequestValidationError, w).
Proof.
  intros H. unfold api_post_message, PostMessageRequest_validate, bind, lift.
  destruct (Z.leb_spec 1 (len c)); [lia | reflexivity].
Qed.

(** What a call that does not go through raises. *)
Lemma post_message_raises (sid : pystr) (req : PostMessageRequest) (w : World) (e : exn) :
  fst (post_message rt sid req w) = Raise e ->
  (db w = None /\ e = HTTPException 500 (lit "Database not configured")) \/
  (db w <> None /\ e = PyMongoError /\
   (store_fails w (store_calls w) = true \/ store_fails w (S (store_calls w)) = true)).
Proof.
  destruct (db w) as [d|] eqn:Hdb.
  - destruct (store_fails w (store_calls w)) eqn:F1.
    + intros H. right. split; [discriminate|]. split; [|now left].
      revert H. destruct w as [dbh clock reads fails oids calls]; simpl in *. subst dbh.
      unfold post_message, bind, require_db, now_utc, insert_one_message, store_call, ret.
      simpl. rewrite F1. simpl. congruence.
    + destruct (store_fails w (S (store_calls w))) eqn:F2.
      * intros H. right. split; [discriminate|]. split; [|now right].
        revert H. destruct w as [dbh clock reads fails oids calls]; simpl in *. subst dbh.
        unfold post_message, bind, require_db, now_utc, insert_one_message, store_call, ret.
        simpl. rewrite F1. simpl. rewrite F2. simpl. congruence.
      * destruct (post_message_run sid req w Hdb F1 F2) as (w' & Hrun & _).
        rewrite Hrun. discriminate.
  - intros H. left. split; [reflexivity|].
    revert H. unfold post_message, bind, require_db. rewrite Hdb. simpl. congruence.
Qed.

Lemma accepted_inv (sid c : pystr) (w : World) :
  accepted rt sid c w = true ->
  (1 <= len c)%Z /\
  exists d, db w = Some d /\
            store_fails w (store_calls w) = false /\
            store_fails w (S (store_calls w)) = false.
Proof.
  unfold accepted. intros H.
  destruct (Z.lt_ge_cases (len c) 1) as [Hl|Hl].
  - rewrite (api_post_message_invalid sid c w Hl) in H. discriminate.
  - split; [exact Hl|].
    rewrite (api_post_message_valid sid c w Hl) in H.
    destruct (fst (post_message rt sid {| content := c |} w)) as [r|e] eqn:E;
      [|discriminate].
    destruct (db w) as [d|] eqn:Hdb.
    + exists d. split; [reflexivity|].
      destruct (store_fails w (store_calls w)) eqn:F1;
        destruct (store_fails w (S (store_calls w))) eqn:F2; auto.
      all: exfalso; revert E;
        destruct w as [dbh clock reads fails oids calls]; simpl in *; subst dbh;
        unfold post_message, bind, require_db, now_utc, insert_one_message, store_call, ret;
        simpl; rewrite F1; simpl; rewrite ?F2; simpl; discriminate.
    + exfalso. revert E. unfold post_message, bind, require_db. rewrite Hdb.
      simpl. discriminate.
Qed.

(** The run of an accepted call, in one statement. *)
Lemma accepted_run (sid c : pystr) (w : World) :
  accepted rt sid c w = true ->
  let k := store_calls w in
  let n := clock_reads w in
  let u := user_doc sid c (utc_now w n) (new_oid w k) in
  let a := asst_doc sid c (utc_now w (S n)) (utc_now w (S (S n))) (new_oid w (S k)) in
  exists w',
    api_post_message rt sid c w = (Ok [to_str_id rt u; to_str_id rt a], w') /\
    messages_of w' = messages_of w ++ [u; a].
Proof.
  intros H. destruct (accepted_inv sid c w H) as (Hl & d & Hdb & F1 & F2).
  destruct (post_message_run sid {| content := c |} w Hdb F1 F2) as (w' & Hrun & Hm & _).
  exists w'. rewrite (api_post_message_valid sid c w Hl). split; [exact Hrun|].
  unfold messages_of at 2. rewrite Hdb. exact Hm.
Qed.

End Service.

(** ** Sessions and queries *)

Lemma create_session_outcome (rt : Runtime) (req : CreateSessionRequest) (w : World) :
  fst (create_session rt req w) <> Raise RequestValidationError.
Proof.
  destruct w as [dbh clock reads fails oids calls].
  unfold create_session, bind, require_db, now_utc, insert_one_studysession,
    store_call, dict_index, ret, raise.
  simpl. destruct dbh as [d|]; simpl; [|discriminate].
  destruct (fails calls); simpl; discriminate.
Qed.

Lemma cursor_limit_positive (n : Z) (l : list dict) :
  (1 <= n)%Z -> cursor_limit n l = firstn (Z.to_nat n) l.
Proof.
  intros H. unfold cursor_limit.
  destruct (Z.eqb_spec n 0); [lia|].
  now rewrite Zabs2Nat.abs_nat_nonneg by lia.
Qed.

Lemma filter_all (l : list dict) : filter (fun _ => true) l = l.
Proof.
  induction l as [|x r IH]; simpl; [reflexivity | now rewrite IH].
Qed.

Lemma list_sessions_run (rt : Runtime) (limit : Z) (w : World) (d : Database) :
  db w = Some d ->
  store_fails w (store_calls w) = false ->
  fst (list_sessions rt (Some limit) w) =
  Ok (map (to_str_id rt)
        (firstn (Z.to_nat (Z.max 1 (Z.min limit 100)))
           (cursor_sort "updated_at" (-1) (studysession d)))).
Proof.
  intros Hdb F.
  unfold list_sessions, bind, require_db, find_studysession, store_call, ret.
  rewrite Hdb. simpl. rewrite Hdb, F. simpl.
  rewrite filter_all, cursor_limit_positive by lia. reflexivity.
Qed.

Lemma get_messages_run (rt : Runtime) (sid : pystr) (limit : Z) (w : World) (d : Database) :
  db w = Some d ->
  store_fails w (store_calls w) = false ->
  fst (get_messages rt sid (Some limit) w) =
  Ok (map (to_str_id rt)
        (firstn (Z.to_nat (Z.max 1 (Z.min limit 500)))
           (cursor_sort "created_at" 1 (filter (session_id_is sid) (message d))))).
Proof.
  intros Hdb F.
  unfold get_messages, bind, require_db, find_message, store_call, ret.
  rewrite Hdb. simpl. rewrite Hdb, F. simpl.
  rewrite cursor_limit_positive by lia. reflexivity.
Qed.

(** ** The claims about the services *)




(** C2: for every accepted call, the stored user message holds the stripped
    content, and the stored assistant message holds the explanation generated
    from the content as it arrived, not stripped. *)
Theorem post_message_stored_contents (rt : Runtime) (sid c : pystr) (w : World) :
  accepted rt sid c w = true ->
  exists u a : dict,
    messages_of (snd (api_post_message rt sid c w)) = messages_of w ++ [u; a] /\
    dict_get "role" u = Some (VStr (lit "user")) /\
    dict_get "content" u = Some (VStr (strip c)) /\
    dict_get "role" a = Some (VStr (lit "assistant")) /\
    dict_get "content" a = Some (VStr (generate_explanation c)).
Proof.
  intros H. destruct (accepted_run rt sid c w H) as (w' & Hrun & Hm).
  rewrite Hrun. simpl snd. eexists _, _. split; [exact Hm|].
  repeat split.
Qed.

Lemma post_message_stored_contents_witness :
  exists u a : dict,
    messages_of (snd (api_post_message example_runtime example_session_id
                        (lit "  entropy ") world_empty)) =
      messages_of world_empty ++ [u; a] /\
    dict_get "role" u = Some (VStr (lit "user")) /\
    dict_get "content" u = Some (VStr (strip (lit "  entropy "))) /\
    dict_get "role" a = Some (VStr (lit "assistant")) /\
    dict_get "content" a = Some (VStr (generate_explanation (lit "  entropy "))).
Proof.
  apply (@post_message_stored_contents example_runtime example_session_id
           (lit "  entropy ") world_empty).
  vm_compute. reflexivity.
Defined.

(** C3, as amended: [create_session] fails with the validation error exactly
    when the title as received, not stripped, has fewer than 1 or more than
    200 characters, and [post_message] exactly when the content as received
    is empty. *)
Theorem validation_counts_unstripped_length (rt : Runtime) :
  (forall (t : pystr) (w : World),
     fst (api_create_session rt t w) = Raise RequestValidationError <->
     ~ (1 <= len t <= 200)%Z) /\
  (forall (sid c : pystr) (w : World),
     fst (api_post_message rt sid c w) = Raise RequestValidationError <->
     (len c < 1)%Z).
Proof.
  split.
  - intros t w. unfold api_create_session, CreateSessionRequest_validate, bind, lift.
    destruct (Z.leb_spec 1 (len t)) as [H1|H1];
      destruct (Z.leb_spec (len t) 200) as [H2|H2]; simpl;
      try (split; [intros _; lia | reflexivity]).
    split; [|lia]. intros H. now apply create_session_outcome in H.
  - intros sid c w. destruct (Z.lt_ge_cases (len c) 1) as [Hl|Hl].
    + rewrite (api_post_message_invalid rt sid c w Hl). simpl. tauto.
    + rewrite (api_post_message_valid rt sid c w Hl). split; [|lia].
      intros H. apply post_message_raises in H.
      destruct H as [[_ H]|(_ & H & _)]; discriminate H.
Qed.

(** C3, as stated, fails on input made of white space only: a title of one
    space has stripped length 0, yet the session is created, with the empty
    title; content of two spaces has stripped length 0, yet the post goes
    through. *)
Lemma whitespace_only_input_is_accepted :
  ~ (1 <= len (strip (lit " ")) <= 200)%Z /\
  fst (api_create_session example_runtime (lit " ") world_empty) =
    Ok [("id", VStr (lit "000000000000000000000001")); ("title", VStr [])]%string /\
  (len (strip (lit "  ")) < 1)%Z /\
  accepted example_runtime example_session_id (lit "  ") world_empty = true.
Proof.
  split; [vm_compute; intros [H _]; now apply H|].
  split; [vm_compute; reflexivity|].
  split; vm_compute; reflexivity.
Qed.

(** C4 fails on the code: the handler reads the clock once for the
    assistant's [created_at] and once more for its [updated_at].  With a
    clock that advances between readings the two differ, while the user
    message, stamped from one reading, carries equal fields. *)
Theorem assistant_timestamps_differ :
  exists u a : dict,
    messages_of (snd (api_post_message example_runtime example_session_id
                        (lit "entropy") world_empty)) = [u; a] /\
    dict_get "created_at" u = Some (VDatetime 1700000000000000%Z) /\
    dict_get "updated_at" u = Some (VDatetime 1700000000000000%Z) /\
    dict_get "role" a = Some (VStr (lit "assistant")) /\
    dict_get "created_at" a = Some (VDatetime 1700000000000001%Z) /\
    dict_get "updated_at" a = Some (VDatetime 1700000000000002%Z).
Proof.
  exists (user_doc example_session_id (lit "entropy") 1700000000000000%Z 1%N),
         (asst_doc example_session_id (lit "entropy")
            1700000000000001%Z 1700000000000002%Z 2%N).
  split; [vm_compute; reflexivity|].
  repeat split.
Qed.

(** In general the assistant's two fields are the second and third readings
    of the clock made by the call. *)
Lemma assistant_timestamps_readings (rt : Runtime) (sid c : pystr) (w : World) :
  accepted rt sid c w = true ->
  exists u a : dict,
    messages_of (snd (api_post_message rt sid c w)) = messages_of w ++ [u; a] /\
    dict_get "created_at" a = Some (VDatetime (utc_now w (S (clock_reads w)))) /\
    dict_get "updated_at" a = Some (VDatetime (utc_now w (S (S (clock_reads w))))).
Proof.
  intros H. destruct (accepted_run rt sid c w H) as (w' & Hrun & Hm).
  rewrite Hrun. simpl snd. eexists _, _. split; [exact Hm|]. split; reflexivity.
Qed.

(** C7: [list_sessions] returns the first [max(1, min(limit, 100))] sessions
    of the sorted listing and [get_messages] the first
    [max(1, min(limit, 500))] messages of the session; an absent limit is 20,
    respectively 100; a limit of 0 acts as 1 and a limit of 1000 as the
    cap. *)
Theorem limits_are_clamped
    (rt : Runtime) (sid : pystr) (limit : Z) (w : World) (d : Database) :
  db w = Some d ->
  store_fails w (store_calls w) = false ->
  (fst (list_sessions rt (Some limit) w) =
     Ok (map (to_str_id rt)
           (firstn (Z.to_nat (Z.max 1 (Z.min limit 100)))
              (cursor_sort "updated_at" (-1) (studysession d)))) /\
   fst (get_messages rt sid (Some limit) w) =
     Ok (map (to_str_id rt)
           (firstn (Z.to_nat (Z.max 1 (Z.min limit 500)))
              (cursor_sort "created_at" 1
                 (filter (session_id_is sid) (message d)))))) /\
  (list_sessions rt (Some limit) w =
     list_sessions rt (Some (Z.max 1 (Z.min limit 100))) w /\
   get_messages rt sid (Some limit) w =
     get_messages rt sid (Some (Z.max 1 (Z.min limit 500))) w) /\
  (list_sessions rt None w = list_sessions rt (Some 20%Z) w /\
   get_messages rt sid None w = get_messages rt sid (Some 100%Z) w) /\
  (list_sessions rt (Some 0%Z) w = list_sessions rt (Some 1%Z) w /\
   list_sessions rt (Some 1000%Z) w = list_sessions rt (Some 100%Z) w /\
   get_messages rt sid (Some 0%Z) w = get_messages rt sid (Some 1%Z) w /\
   get_messages rt sid (Some 1000%Z) w = get_messages rt sid (Some 500%Z) w).
Proof.
  intros Hdb F. split; [|split; [|split]].
  - split; [now apply list_sessions_run | now apply get_messages_run].
  - unfold list_sessions, get_messages. split.
    + replace (Z.max 1 (Z.min (Z.max 1 (Z.min limit 100)) 100))
        with (Z.max 1 (Z.min limit 100)) by lia. reflexivity.
    + replace (Z.max 1 (Z.min (Z.max 1 (Z.min limit 500)) 500))
        with (Z.max 1 (Z.min limit 500)) by lia. reflexivity.
  - split; reflexivity.
  - repeat split.
Qed.

(** C8: once the two inserts are done, the call succeeds whatever the
    session id and whatever happens to the touch.  The store is called a
    third time only when the id is well formed; that call may fail or find no
    session, and with an ill-formed id the sessions are left as they were. *)
Theorem session_touch_never_fails_the_post
    (rt : Runtime) (sid c : pystr) (w : World) (d : Database) :
  (1 <= len c)%Z ->
  db w = Some d ->
  store_fails w (store_calls w) = false ->
  store_fails w (S (store_calls w)) = false ->
  exists (resp : list dict) (w' : World) (u a : dict),
    api_post_message rt sid c w = (Ok resp, w') /\
    messages_of w' = message d ++ [u; a] /\
    dict_get "role" u = Some (VStr (lit "user")) /\
    dict_get "role" a = Some (VStr (lit "assistant")) /\
    store_calls w' = (if is_valid rt sid then 3 + store_calls w
                      else 2 + store_calls w)%nat /\
    (is_valid rt sid = false -> sessions_of w' = studysession d).
Proof.
  intros Hl Hdb F1 F2.
  destruct (post_message_run rt sid {| content := c |} w Hdb F1 F2)
    as (w' & Hrun & Hm & Hc & Hs).
  rewrite (api_post_message_valid rt sid c w Hl).
  eexists _, w', _, _. split; [exact Hrun|]. split; [exact Hm|].
  split; [reflexivity|]. split; [reflexivity|]. split; [exact Hc | exact Hs].
Qed.

Lemma limits_are_clamped_witness :
  db world_busy <> None /\
  store_fails world_busy (store_calls world_busy) = false /\
  fst (list_sessions example_runtime (Some 0%Z) world_busy) =
    Ok (map (to_str_id example_runtime)
          (firstn 1 (cursor_sort "updated_at" (-1) (sessions_of world_busy)))) /\
  fst (get_messages example_runtime (lit "other") (Some 1000%Z) world_busy) =
    Ok (map (to_str_id example_runtime)
          (firstn 500 (cursor_sort "created_at" 1
                         (filter (session_id_is (lit "other"))
                            (messages_of world_busy))))).
Proof.
  split; [discriminate|]. split; [reflexivity|]. split.
  - exact (proj1 (proj1 (@limits_are_clamped example_runtime (lit "other") 0%Z
                           world_busy _ eq_refl eq_refl))).
  - exact (proj2 (proj1 (@limits_are_clamped example_runtime (lit "other") 1000%Z
                           world_busy _ eq_refl eq_refl))).
Defined.

Lemma session_touch_never_fails_the_post_witness :
  is_valid example_runtime example_session_id = true /\
  sessions_of world_touch_fails = [] /\
  store_fails world_touch_fails 2 = true /\
  exists (resp : list dict) (w' : World) (u a : dict),
    api_post_message example_runtime example_session_id (lit "entropy")
      world_touch_fails = (Ok resp, w') /\
    messages_of w' = [u; a] /\
    dict_get "role" u = Some (VStr (lit "user")) /\
    dict_get "role" a = Some (VStr (lit "assistant")) /\
    store_calls w' = 3%nat /\
    (is_valid example_runtime example_session_id = false -> sessions_of w' = []).
Proof.
  split; [reflexivity|]. split; [reflexivity|]. split; [reflexivity|].
  apply (@session_touch_never_fails_the_post example_runtime example_session_id
           (lit "entropy") world_touch_fails {| studysession := []; message := [] |}).
  - vm_compute. discriminate.
  - reflexivity.
  - reflexivity.
  - reflexivity.
Defined.

(** C10: the generator gives the same text for a topic and for the
    stripped topic, so the assistant message of an accepted call holds
    exactly the explanation of the content stored in the user message. *)
Theorem generate_explanation_ignores_outer_whitespace :
  (forall topic : pystr,
     generate_explanation topic = generate_explanation (strip topic)) /\
  (forall (rt : Runtime) (sid c : pystr) (w : World),
     accepted rt sid c w = true ->
     exists (u a : dict) (stored : pystr),
       messages_of (snd (api_post_message rt sid c w)) = messages_of w ++ [u; a] /\
       dict_get "content" u = Some (VStr stored) /\
       stored = strip c /\
       dict_get "content" a = Some (VStr (generate_explanation stored))).
Proof.
  split; [exact generate_explanation_strip|].
  intros rt sid c w H.
  destruct (accepted_run rt sid c w H) as (w' & Hrun & Hm).
  rewrite Hrun. simpl snd. eexists _, _, (strip c).
  split; [exact Hm|]. split; [reflexivity|]. split; [reflexivity|].
  simpl. now rewrite <- generate_explanation_strip.
Qed.

Lemma generate_explanation_ignores_outer_whitespace_witness :
  accepted example_runtime example_session_id (lit "  entropy ") world_empty = true /\
  generate_explanation (lit "  entropy ") = generate_explanation (lit "entropy") /\
  exists (u a : dict) (stored : pystr),
    messages_of (snd (api_post_message example_runtime example_session_id
                        (lit "  entropy ") world_empty)) =
      messages_of world_empty ++ [u; a] /\
    dict_get "content" u = Some (VStr stored) /\
    stored = strip (lit "  entropy ") /\
    dict_get "content" a = Some (VStr (generate_explanation stored)).
Proof.
  split; [vm_compute; reflexivity|]. split.
  - exact (proj1 generate_explanation_ignores_outer_whitespace (lit "  entropy ")).
  - apply (proj2 generate_explanation_ignores_outer_whitespace).
    vm_compute. reflexivity.
Defined.

(** * Further properties of the code *)

(** ** Dicts *)

Lemma dict_get_set_same (k : string) (v : value) (d : dict) :
  dict_get k (dict_set k v d) = Some v.
Proof.
  induction d as [|[k' v'] r IH]; simpl.
  - now rewrite String.eqb_refl.
  - destruct (String.eqb k k') eqn:E; simpl; rewrite E; [reflexivity | exact IH].
Qed.

Lemma dict_get_set_other (k k' : string) (v : value) (d : dict) :
  k <> k' -> dict_get k (dict_set k' v d) = dict_get k d.
Proof.
  intros Hne. induction d as [|[k0 v0] r IH]; simpl.
  - apply String.eqb_neq in Hne. now rewrite Hne.
  - destruct (String.eqb k' k0) eqn:E; simpl.
    + destruct (String.eqb k k0) eqn:E0; [|reflexivity].
      apply String.eqb_eq in E, E0. congruence.
    + now rewrite IH.
Qed.

Lemma dict_get_remove_other (k k' : string) (d : dict) :
  k <> k' -> dict_get k (dict_remove k' d) = dict_get k d.
Proof.
  intros Hne. induction d as [|[k0 v0] r IH]; simpl; [reflexivity|].
  destruct (String.eqb k' k0) eqn:E; simpl.
  - destruct (String.eqb k k0) eqn:E0; [|reflexivity].
    apply String.eqb_eq in E, E0. congruence.
  - now rewrite IH.
Qed.

Lemma dict_get_absent (k : string) (d : dict) :
  ~ In k (keys d) -> dict_get k d = None.
Proof.
  induction d as [|[k0 v0] r IH]; simpl; [reflexivity|].
  intros H. destruct (String.eqb_spec k k0) as [->|Hne]; [tauto|].
  apply IH. tauto.
Qed.

Lemma dict_get_remove_same (k : string) (d : dict) :
  NoDup (keys d) -> dict_get k (dict_remove k d) = None.
Proof.
  induction d as [|[k0 v0] r IH]; simpl; [reflexivity|].
  intros H. inversion H as [|? ? Hnot Hr]; subst.
  destruct (String.eqb_spec k k0) as [->|Hne].
  - now apply dict_get_absent.
  - simpl. destruct (String.eqb_spec k k0); [congruence | now apply IH].
Qed.

(** ** Serialising a document *)

Lemma render_entry_spec (rt : Runtime) (kv : string * value) :
  render_entry rt kv = (fst kv, rendered rt (snd kv)).
Proof.
  destruct kv as [k [s|t|o]]; reflexivity.
Qed.

Lemma dict_get_render (rt : Runtime) (k : string) (d : dict) :
  dict_get k (map (render_entry rt) d) = option_map (rendered rt) (dict_get k d).
Proof.
  induction d as [|[k0 v0] r IH]; simpl; [reflexivity|].
  rewrite render_entry_spec. simpl.
  destruct (String.eqb k k0); [reflexivity | exact IH].
Qed.

Lemma render_entry_idempotent (rt : Runtime) (kv : string * value) :
  render_entry rt (render_entry rt kv) = render_entry rt kv.
Proof.
  destruct kv as [k [s|t|o]]; reflexivity.
Qed.

Lemma to_str_id_unfold (rt : Runtime) (doc : dict) :
  to_str_id rt doc =
  map (render_entry rt)
    (match dict_get "_id" doc with
     | Some v => dict_set "id" (VStr (py_str rt v)) (dict_remove "_id" doc)
     | None => doc
     end).
Proof. reflexivity. Qed.

Lemma to_str_id_no_store_id (rt : Runtime) (doc : dict) :
  NoDup (keys doc) -> dict_get "_id" (to_str_id rt doc) = None.
Proof.
  intros H. rewrite to_str_id_unfold, dict_get_render.
  destruct (dict_get "_id" doc) as [v|] eqn:E.
  - rewrite dict_get_set_other by discriminate.
    now rewrite dict_get_remove_same.
  - now rewrite E.
Qed.



(** X2: no date is left in a serialised document: every value in it is a
    string or an identifier. *)
Theorem to_str_id_leaves_no_datetime (rt : Runtime) (doc : dict) :
  Forall (fun kv : string * value => forall t : datetime, snd kv <> VDatetime t)
    (to_str_id rt doc).
Proof.
  rewrite to_str_id_unfold. apply Forall_map, Forall_forall.
  intros [k [s|t0|o]] _ t; simpl; discriminate.
Qed.

(** X3: the fields other than [_id] and [id] keep their keys; a date is
    replaced by its ISO text and any other value is kept as it is. *)
Theorem to_str_id_keeps_other_fields (rt : Runtime) (doc : dict) (k : string) :
  k <> "_id"%string -> k <> "id"%string ->
  dict_get k (to_str_id rt doc) = option_map (rendered rt) (dict_get k doc).
Proof.
  intros H1 H2. rewrite to_str_id_unfold, dict_get_render.
  destruct (dict_get "_id" doc); [|reflexivity].
  now rewrite dict_get_set_other, dict_get_remove_other.
Qed.

Lemma to_str_id_keeps_other_fields_witness :
  dict_get "created_at"
    (to_str_id example_runtime
       (session_doc (lit " Optics ") 1700000000000000%Z 3%N)) =
  Some (VStr (lit "1700000000000000")).
Proof.
  rewrite (@to_str_id_keeps_other_fields example_runtime
             (session_doc (lit " Optics ") 1700000000000000%Z 3%N) "created_at");
    [reflexivity | discriminate | discriminate].
Defined.

(** X4: serialising twice changes nothing more. *)
Theorem to_str_id_idempotent (rt : Runtime) (doc : dict) :
  NoDup (keys doc) ->
  to_str_id rt (to_str_id rt doc) = to_str_id rt doc.
Proof.
  intros H.
  rewrite (to_str_id_unfold rt (to_str_id rt doc)).
  rewrite (to_str_id_no_store_id rt doc H).
  rewrite to_str_id_unfold, map_map.
  apply map_ext. intros kv. apply render_entry_idempotent.
Qed.

Lemma to_str_id_idempotent_witness :
  let doc := session_doc (lit " Optics ") 1700000000000000%Z 3%N in
  NoDup (keys doc) /\
  to_str_id example_runtime (to_str_id example_runtime doc) =
  to_str_id example_runtime doc.
Proof.
  intros doc.
  assert (H : NoDup (keys doc)).
  { repeat constructor; simpl; intuition discriminate. }
  split; [exact H|]. exact (@to_str_id_idempotent example_runtime doc H).
Defined.

(** ** Stripping, continued *)

Lemma lstrip_no_leading_space (s : pystr) : no_leading_space (lstrip s).
Proof.
  induction s as [|c r IH]; simpl; [exact I|].
  destruct (isspace c) eqn:E; [exact IH | exact E].
Qed.

Lemma strip_trimmed (s : pystr) : trimmed (strip s).
Proof.
  split.
  - unfold strip. rewrite <- (lstrip_rstrip_lstrip s). apply lstrip_no_leading_space.
  - unfold strip, rstrip. rewrite rev_involutive. apply lstrip_no_leading_space.
Qed.

Lemma lstrip_fixed (s : pystr) : no_leading_space s -> lstrip s = s.
Proof.
  destruct s as [|c r]; simpl; [reflexivity|]. now intros ->.
Qed.

Lemma strip_fixed (s : pystr) : trimmed s -> strip s = s.
Proof.
  intros [H1 H2]. unfold strip, rstrip.
  rewrite (lstrip_fixed s H1), (lstrip_fixed (rev s) H2). apply rev_involutive.
Qed.

Lemma lstrip_all_space (s : pystr) : forallb isspace s = true -> lstrip s = [].
Proof.
  induction s as [|c r IH]; simpl; [reflexivity|].
  destruct (isspace c); simpl; [exact IH | discriminate].
Qed.

Lemma strip_all_space (s : pystr) : forallb isspace s = true -> strip s = [].
Proof.
  intros H. unfold strip. now rewrite (lstrip_all_space s H).
Qed.

(** ** Creating a session *)

(** X5: on a configured store that accepts the insert, a title of 1 to 200
    characters adds exactly one session, stamped with one clock reading in
    both date fields, and leaves the messages alone; the stored title is the
    stripped one, so it has no white space at either end and at most 200
    characters, and the response carries that title and the text of the new
    identifier. *)
Theorem create_session_stores_trimmed_title
    (rt : Runtime) (t : pystr) (w : World) (d : Database) :
  db w = Some d ->
  store_fails w (store_calls w) = false ->
  (1 <= len t <= 200)%Z ->
  let id := new_oid w (store_calls w) in
  let doc := session_doc t (utc_now w (clock_reads w)) id in
  exists w' : World,
    api_create_session rt t w =
      (Ok [("id", VStr (oid_str rt id)); ("title", VStr (strip t))]%string, w') /\
    sessions_of w' = studysession d ++ [doc] /\
    messages_of w' = message d /\
    trimmed (strip t) /\
    (len (strip t) <= 200)%Z.
Proof.
  intros Hdb F Hl id doc. subst id doc.
  destruct w as [dbh clock reads fails oids calls]; simpl in *. subst dbh.
  unfold api_create_session, CreateSessionRequest_validate, bind at 1, lift.
  destruct (Z.leb_spec 1 (len t)); [|lia].
  destruct (Z.leb_spec (len t) 200); [|lia]. simpl.
  unfold create_session, bind, require_db, now_utc, insert_one_studysession,
    store_call, dict_index, ret.
  simpl. rewrite F. simpl.
  eexists. split; [reflexivity|]. split; [reflexivity|]. split; [reflexivity|].
  split; [apply strip_trimmed|].
  pose proof (strip_length t). unfold len in *. lia.
Qed.

Lemma create_session_stores_trimmed_title_witness :
  exists w' : World,
    api_create_session example_runtime (lit "  Thermodynamics ") world_empty =
      (Ok [("id", VStr (lit "000000000000000000000001"));
           ("title", VStr (lit "Thermodynamics"))]%string, w') /\
    sessions_of w' =
      [session_doc (lit "  Thermodynamics ") 1700000000000000%Z 1%N] /\
    messages_of w' = [] /\
    trimmed (lit "Thermodynamics") /\
    (len (lit "Thermodynamics") <= 200)%Z.
Proof.
  apply (@create_session_stores_trimmed_title example_runtime
           (lit "  Thermodynamics ") world_empty
           {| studysession := []; message := [] |}).
  - reflexivity.
  - reflexivity.
  - vm_compute. split; discriminate.
Defined.

(** X6: with the store not configured, the four handlers raise the 500
    error before anything else: the clock is not read and the store is not
    called, so the world is left exactly as it was. *)
Theorem handlers_fail_fast_without_store
    (rt : Runtime) (sid t c : pystr) (limit : option Z) (w : World) :
  db w = None ->
  create_session rt {| title := t |} w = (Raise not_configured, w) /\
  list_sessions rt limit w = (Raise not_configured, w) /\
  get_messages rt sid limit w = (Raise not_configured, w) /\
  post_message rt sid {| content := c |} w = (Raise not_configured, w).
Proof.
  intros H. unfold create_session, list_sessions, get_messages, post_message.
  repeat split; unfold bind at 1; unfold require_db; rewrite H; reflexivity.
Qed.

Lemma handlers_fail_fast_without_store_witness :
  create_session example_runtime {| title := lit "Optics" |} world_unconfigured =
    (Raise not_configured, world_unconfigured) /\
  list_sessions example_runtime (Some 5%Z) world_unconfigured =
    (Raise not_configured, world_unconfigured) /\
  get_messages example_runtime example_session_id (Some 5%Z) world_unconfigured =
    (Raise not_configured, world_unconfigured) /\
  post_message example_runtime example_session_id {| content := lit "entropy" |}
    world_unconfigured = (Raise not_configured, world_unconfigured).
Proof.
  apply (@handlers_fail_fast_without_store example_runtime example_session_id
           (lit "Optics") (lit "entropy") (Some 5%Z) world_unconfigured).
  reflexivity.
Defined.

(** ** What every run keeps *)

Section Frame.

Variable R : World -> World -> Prop.

(** [R] looks at the store only, and composes. *)
Hypothesis R_store : forall w w' : World, db w' = db w -> R w w'.
Hypothesis R_trans : forall a b c : World, R a b -> R b c -> R a c.

Lemma keeps_ret {A} (a : A) : keeps R (ret a).
Proof. intros w. now apply R_store. Qed.

Lemma keeps_raise {A} (e : exn) : keeps R (@raise A e).
Proof. intros w. now apply R_store. Qed.

Lemma keeps_lift {A} (o : outcome A) : keeps R (lift o).
Proof. intros w. now apply R_store. Qed.

Lemma keeps_require_db : keeps R require_db.
Proof. intros w. unfold require_db. destruct (db w); now apply R_store. Qed.

Lemma keeps_now_utc : keeps R now_utc.
Proof. intros w. now apply R_store. Qed.

Lemma keeps_bind {A B} (m : M A) (k : A -> M B) :
  keeps R m -> (forall a : A, keeps R (k a)) -> keeps R (bind m k).
Proof.
  intros Hm Hk w. unfold bind. specialize (Hm w).
  destruct (m w) as [[a|e] w1]; simpl in *; [|exact Hm].
  exact (R_trans Hm (Hk a w1)).
Qed.

Lemma keeps_try_pass (m : M unit) : keeps R m -> keeps R (try_pass m).
Proof.
  intros Hm w. unfold try_pass. specialize (Hm w).
  destruct (m w) as [[a|e] w1]; exact Hm.
Qed.

Lemma keeps_store_call {A} (op : ObjectId -> Database -> A * Database) :
  (forall (fresh : ObjectId) (d : Database) (w w' : World),
     db w = Some d -> db w' = Some (snd (op fresh d)) -> R w w') ->
  keeps R (store_call op).
Proof.
  intros Hop w. unfold store_call.
  destruct (db w) as [d|] eqn:Hdb; [|now apply R_store].
  destruct (store_fails w (store_calls w)); [now apply R_store|].
  destruct (op (new_oid w (store_calls w)) d) as [a d'] eqn:E. simpl.
  apply (Hop (new_oid w (store_calls w)) d); [exact Hdb|]. simpl. now rewrite E.
Qed.

End Frame.

Lemma messages_grow_store (w w' : World) : db w' = db w -> messages_grow w w'.
Proof.
  intros H. exists []. unfold messages_of. rewrite H. now rewrite app_nil_r.
Qed.

Lemma messages_grow_trans (a b c : World) :
  messages_grow a b -> messages_grow b c -> messages_grow a c.
Proof.
  intros [x Hx] [y Hy]. exists (x ++ y). now rewrite Hy, Hx, app_assoc.
Qed.

Lemma sessions_keep_shape_store (w w' : World) :
  db w' = db w -> sessions_keep_shape w w'.
Proof.
  intros H k _. unfold sessions_of. now rewrite H.
Qed.

Lemma sessions_keep_shape_trans (a b c : World) :
  sessions_keep_shape a b -> sessions_keep_shape b c -> sessions_keep_shape a c.
Proof.
  intros Hab Hbc k Hk. now rewrite (Hbc k Hk), (Hab k Hk).
Qed.

Lemma store_unchanged_trans (a b c : World) :
  store_unchanged a b -> store_unchanged b c -> store_unchanged a c.
Proof.
  unfold store_unchanged. congruence.
Qed.

Lemma set_first_other_fields (oid : ObjectId) (k0 k : string) (v : value) (c : list dict) :
  k <> k0 -> map (dict_get k) (set_first oid k0 v c) = map (dict_get k) c.
Proof.
  intros Hk. induction c as [|doc r IH]; simpl; [reflexivity|].
  destruct (dict_get "_id" doc) as [id|]; simpl; [|now rewrite IH].
  destruct (value_eqb id (VObjectId oid)); simpl; [|now rewrite IH].
  now rewrite dict_get_set_other.
Qed.

(** Composition of a handler out of the primitives, for one relation; the
    store calls are left to the caller. *)
Ltac framed Hs Ht :=
  repeat first
    [ apply (keeps_bind Ht); [|intros ?]
    | apply keeps_ret; exact Hs
    | apply keeps_raise; exact Hs
    | apply keeps_lift; exact Hs
    | apply keeps_require_db; exact Hs
    | apply keeps_now_utc; exact Hs ].

Lemma touch_session_keeps (R : World -> World -> Prop) (rt : Runtime) (sid : pystr) :
  (forall w w' : World, db w' = db w -> R w w') ->
  (forall a b c : World, R a b -> R b c -> R a c) ->
  (forall (oid : ObjectId) (v : value),
     keeps R (update_one_studysession oid "updated_at" v)) ->
  keeps R (touch_session rt sid).
Proof.
  intros Hs Ht Hu. unfold touch_session, ObjectId_of.
  apply keeps_try_pass.
  destruct (is_valid rt sid); [|apply keeps_ret; exact Hs].
  destruct (oid_parse rt sid); framed Hs Ht; apply Hu.
Qed.

Lemma post_message_keeps (R : World -> World -> Prop) (rt : Runtime)
    (sid : pystr) (req : PostMessageRequest) :
  (forall w w' : World, db w' = db w -> R w w') ->
  (forall a b c : World, R a b -> R b c -> R a c) ->
  (forall doc : dict, keeps R (insert_one_message doc)) ->
  (forall (oid : ObjectId) (v : value),
     keeps R (update_one_studysession oid "updated_at" v)) ->
  keeps R (post_message rt sid req).
Proof.
  intros Hs Ht Hi Hu. unfold post_message.
  framed Hs Ht; try apply Hi.
  now apply touch_session_keeps.
Qed.

Lemma insert_one_message_grows (doc : dict) :
  keeps messages_grow (insert_one_message doc).
Proof.
  apply keeps_store_call; [exact messages_grow_store|].
  intros fresh d w w' H H'. unfold messages_grow, messages_of.
  rewrite H, H'. simpl. eauto.
Qed.

Lemma update_one_keeps_messages (oid : ObjectId) (k : string) (v : value) :
  keeps messages_grow (update_one_studysession oid k v).
Proof.
  apply keeps_store_call; [exact messages_grow_store|].
  intros fresh d w w' H H'. exists []. unfold messages_of.
  rewrite H, H'. simpl. now rewrite app_nil_r.
Qed.

Lemma insert_one_message_keeps_sessions (doc : dict) :
  keeps sessions_keep_shape (insert_one_message doc).
Proof.
  apply keeps_store_call; [exact sessions_keep_shape_store|].
  intros fresh d w w' H H' k _. unfold sessions_of. now rewrite H, H'.
Qed.

Lemma update_one_keeps_sessions (oid : ObjectId) (v : value) :
  keeps sessions_keep_shape (update_one_studysession oid "updated_at" v).
Proof.
  apply keeps_store_call; [exact sessions_keep_shape_store|].
  intros fresh d w w' H H' k Hk. unfold sessions_of. rewrite H, H'. simpl.
  now apply set_first_other_fields.
Qed.

Lemma find_keeps_store (R : World -> World -> Prop) (coll : Database -> list dict)
    (flt : dict -> bool) (key : string) (direction n : Z) :
  (forall w w' : World, db w' = db w -> R w w') ->
  keeps R (store_call (fun (_ : ObjectId) (d : Database) =>
             (cursor_limit n (cursor_sort key direction (filter flt (coll d))), d))).
Proof.
  intros Hs. apply keeps_store_call; [exact Hs|].
  intros fresh d w w' H H'. apply Hs. now rewrite H, H'.
Qed.

Lemma queries_keep (R : World -> World -> Prop) (rt : Runtime) (sid : pystr)
    (limit : option Z) :
  (forall w w' : World, db w' = db w -> R w w') ->
  (forall a b c : World, R a b -> R b c -> R a c) ->
  keeps R (list_sessions rt limit) /\ keeps R (get_messages rt sid limit).
Proof.
  intros Hs Ht. unfold list_sessions, get_messages, find_studysession, find_message.
  split; framed Hs Ht; now apply find_keeps_store.
Qed.

Lemma test_database_keeps (R : World -> World -> Prop) (p : Process) :
  (forall w w' : World, db w' = db w -> R w w') ->
  keeps R (test_database p).
Proof.
  intros Hs w. unfold test_database.
  destruct (db w) as [d|] eqn:Hdb; [|now apply Hs].
  pose proof (@keeps_store_call R Hs _
                (fun (_ : ObjectId) (d : Database) => (collection_names p, d))) as H.
  specialize (H (fun fresh d0 w0 w1 H0 H1 => Hs w0 w1 (eq_trans H1 (eq_sym H0))) w).
  unfold list_collection_names.
  destruct (store_call _ w) as [[names|e] w']; exact H.
Qed.

Lemma create_session_keeps_messages (rt : Runtime) (req : CreateSessionRequest) :
  keeps messages_grow (create_session rt req).
Proof.
  unfold create_session, insert_one_studysession.
  framed messages_grow_store messages_grow_trans.
  - apply keeps_store_call; [exact messages_grow_store|].
    intros fresh d w w' H H'. exists []. unfold messages_of.
    rewrite H, H'. simpl. now rewrite app_nil_r.
  - unfold dict_index. destruct (dict_get _ _);
      framed messages_grow_store messages_grow_trans.
Qed.

(** X7: no endpoint removes or alters a stored message: after any run of
    any of them, whether it returns or raises, the messages stored before are
    still there, in the same order, at the head of the collection. *)
Theorem messages_are_append_only
    (rt : Runtime) (p : Process) (sid t c : pystr) (limit : option Z) (w : World) :
  messages_grow w (snd (api_create_session rt t w)) /\
  messages_grow w (snd (list_sessions rt limit w)) /\
  messages_grow w (snd (get_messages rt sid limit w)) /\
  messages_grow w (snd (api_post_message rt sid c w)) /\
  messages_grow w (snd (test_database p w)).
Proof.
  split; [|split; [|split; [|split]]].
  - unfold api_create_session.
    apply (keeps_bind messages_grow_trans);
      [apply keeps_lift; exact messages_grow_store|].
    intros req. apply create_session_keeps_messages.
  - apply (@queries_keep _ rt sid limit messages_grow_store messages_grow_trans).
  - apply (@queries_keep _ rt sid limit messages_grow_store messages_grow_trans).
  - unfold api_post_message.
    apply (keeps_bind messages_grow_trans);
      [apply keeps_lift; exact messages_grow_store|].
    intros req.
    apply (@post_message_keeps _ rt sid req messages_grow_store messages_grow_trans);
      [exact insert_one_message_grows | intros; apply update_one_keeps_messages].
  - apply (@test_database_keeps _ p messages_grow_store).
Qed.

(** X8: posting a message never adds, removes or reorders a session, and
    changes no field of any session other than [updated_at], whatever the
    session id and whatever the outcome of the call. *)
Theorem post_message_keeps_sessions
    (rt : Runtime) (sid c : pystr) (w : World) (k : string) :
  k <> "updated_at"%string ->
  map (dict_get k) (sessions_of (snd (api_post_message rt sid c w))) =
  map (dict_get k) (sessions_of w).
Proof.
  revert k. change (sessions_keep_shape w (snd (api_post_message rt sid c w))).
  revert w. change (keeps sessions_keep_shape (api_post_message rt sid c)).
  unfold api_post_message.
  apply (keeps_bind sessions_keep_shape_trans);
    [apply keeps_lift; exact sessions_keep_shape_store|].
  intros req.
  apply (@post_message_keeps _ rt sid req sessions_keep_shape_store
           sessions_keep_shape_trans);
    [exact insert_one_message_keeps_sessions | exact update_one_keeps_sessions].
Qed.

(** X9: the two listing endpoints and the diagnostic endpoint leave the
    store exactly as it was, whether they return or raise. *)
Theorem queries_are_read_only
    (rt : Runtime) (p : Process) (sid : pystr) (limit : option Z) (w : World) :
  db (snd (list_sessions rt limit w)) = db w /\
  db (snd (get_messages rt sid limit w)) = db w /\
  db (snd (test_database p w)) = db w.
Proof.
  assert (Hs : forall a b : World, db b = db a -> store_unchanged a b)
    by (intros; assumption).
  split; [|split].
  - apply (@queries_keep _ rt sid limit Hs store_unchanged_trans).
  - apply (@queries_keep _ rt sid limit Hs store_unchanged_trans).
  - apply (@test_database_keeps _ p Hs).
Qed.

Lemma post_message_keeps_sessions_witness :
  "title"%string <> "updated_at"%string /\
  map (dict_get "title")
    (sessions_of (snd (api_post_message example_runtime
                         (lit "000000000000000000000009") (lit "entropy") world_busy))) =
  map (dict_get "title") (sessions_of world_busy).
Proof.
  split; [discriminate|].
  apply (@post_message_keeps_sessions example_runtime
           (lit "000000000000000000000009") (lit "entropy") world_busy "title").
  discriminate.
Defined.

(** ** Sorted cursors *)

Lemma str_leb_total (a b : pystr) : str_leb a b = true \/ str_leb b a = true.
Proof.
  revert b. induction a as [|x a IH]; intros [|y b]; simpl; auto.
  destruct (N.ltb_spec x y); auto.
  destruct (N.ltb_spec y x); auto.
Qed.

Lemma bson_leb_total (a b : option value) :
  bson_leb a b = true \/ bson_leb b a = true.
Proof.
  destruct a as [[s|t|o]|], b as [[s'|t'|o']|]; simpl; auto.
  - apply str_leb_total.
  - destruct (Z.leb_spec t t'); auto. right. apply Z.leb_le. lia.
  - destruct (N.leb_spec o o'); auto. right. apply N.leb_le. lia.
Qed.

Section InsertionSort.

Variable before : dict -> dict -> bool.
Hypothesis before_total : forall x y : dict, before x y = true \/ before y x = true.

Lemma insert_sorted_hd (x y : dict) (l : list dict) :
  (ordered_by before) y x -> HdRel (ordered_by before) y l -> HdRel (ordered_by before) y (insert_sorted before x l).
Proof.
  intros Hyx Hl. destruct l as [|z r]; simpl.
  - now constructor.
  - destruct (before x z); constructor; [exact Hyx|].
    now inversion Hl.
Qed.

Lemma insert_sorted_sorted (x : dict) (l : list dict) :
  Sorted (ordered_by before) l -> Sorted (ordered_by before) (insert_sorted before x l).
Proof.
  induction 1 as [|y r Hr IH Hhd]; simpl.
  - repeat constructor.
  - destruct (before x y) eqn:E.
    + constructor; [now constructor|]. now constructor.
    + constructor; [exact IH|].
      apply insert_sorted_hd; [|exact Hhd].
      destruct (before_total x y) as [H|H]; [congruence | exact H].
Qed.

Lemma insert_sorted_perm (x : dict) (l : list dict) :
  Permutation (x :: l) (insert_sorted before x l).
Proof.
  induction l as [|y r IH]; simpl; [reflexivity|].
  destruct (before x y); [reflexivity|].
  rewrite perm_swap. now constructor.
Qed.

Lemma fold_insert_sorted (l : list dict) :
  Sorted (ordered_by before) (fold_right (insert_sorted before) [] l) /\
  Permutation l (fold_right (insert_sorted before) [] l).
Proof.
  induction l as [|x r [IH1 IH2]]; simpl; [split; constructor|].
  split; [now apply insert_sorted_sorted|].
  rewrite <- insert_sorted_perm. now constructor.
Qed.

End InsertionSort.

Lemma sorted_firstn {A} (R : A -> A -> Prop) (n : nat) (l : list A) :
  Sorted R l -> Sorted R (firstn n l).
Proof.
  intros H. revert n. induction H as [|x r Hr IH Hhd]; intros [|n]; simpl;
    try constructor.
  - apply IH.
  - destruct n, Hhd; simpl; constructor; assumption.
Qed.

Lemma cursor_sort_ascending (key : string) (l : list dict) :
  Sorted (ascending key) (cursor_sort key 1 l) /\
  Permutation l (cursor_sort key 1 l).
Proof.
  unfold cursor_sort. simpl.
  apply (@fold_insert_sorted
           (fun x y => bson_leb (dict_get key x) (dict_get key y))).
  intros x y. apply bson_leb_total.
Qed.

Lemma cursor_sort_descending (key : string) (l : list dict) :
  Sorted (descending key) (cursor_sort key (-1) l) /\
  Permutation l (cursor_sort key (-1) l).
Proof.
  unfold cursor_sort. simpl.
  apply (@fold_insert_sorted
           (fun x y => bson_leb (dict_get key y) (dict_get key x))).
  intros x y. apply bson_leb_total.
Qed.

Lemma value_eqb_eq (a b : value) : value_eqb a b = true -> a = b.
Proof.
  destruct a as [s|t|o], b as [s'|t'|o']; simpl; try discriminate.
  - destruct (list_eq_dec N.eq_dec s s'); [congruence | discriminate].
  - intros H. apply Z.eqb_eq in H. congruence.
  - intros H. apply N.eqb_eq in H. congruence.
Qed.

Lemma value_eqb_refl (a : value) : value_eqb a a = true.
Proof.
  destruct a as [s|t|o]; simpl.
  - destruct (list_eq_dec N.eq_dec s s); [reflexivity | congruence].
  - apply Z.eqb_refl.
  - apply N.eqb_refl.
Qed.

Lemma session_id_is_true (sid : pystr) (doc : dict) :
  session_id_is sid doc = true <-> dict_get "session_id" doc = Some (VStr sid).
Proof.
  unfold session_id_is. destruct (dict_get "session_id" doc) as [v|]; split;
    try discriminate.
  - intros H. now rewrite (value_eqb_eq _ _ H).
  - intros [= ->]. apply value_eqb_refl.
Qed.

Lemma dict_get_to_str_id (rt : Runtime) (doc : dict) (k : string) :
  k <> "_id"%string -> k <> "id"%string ->
  dict_get k (to_str_id rt doc) = option_map (rendered rt) (dict_get k doc).
Proof.
  intros H1 H2. rewrite to_str_id_unfold, dict_get_render.
  destruct (dict_get "_id" doc); [|reflexivity].
  now rewrite dict_get_set_other, dict_get_remove_other.
Qed.

Lemma firstn_In {A} (n : nat) (l : list A) (x : A) :
  In x (firstn n l) -> In x l.
Proof.
  intros H. rewrite <- (firstn_skipn n l). apply in_or_app. now left.
Qed.

(** X10: on a configured store whose query succeeds, [list_sessions]
    returns stored sessions, serialised, most recently updated first; their
    number is the smaller of [max(1, min(limit, 100))] and the number of
    stored sessions, hence never more than 100. *)
Theorem list_sessions_sorted_and_bounded
    (rt : Runtime) (limit : Z) (w : World) (d : Database) :
  db w = Some d ->
  store_fails w (store_calls w) = false ->
  exists items : list dict,
    fst (list_sessions rt (Some limit) w) = Ok (map (to_str_id rt) items) /\
    Sorted (descending "updated_at") items /\
    incl items (studysession d) /\
    length items =
      Nat.min (Z.to_nat (Z.max 1 (Z.min limit 100))) (length (studysession d)) /\
    (length items <= 100)%nat.
Proof.
  intros Hdb F.
  destruct (cursor_sort_descending "updated_at" (studysession d)) as [Hs Hp].
  eexists. split; [exact (list_sessions_run rt limit w Hdb F)|].
  split; [now apply sorted_firstn|]. split; [|split].
  - intros x Hx. apply firstn_In in Hx.
    now apply (Permutation_in _ (Permutation_sym Hp)).
  - now rewrite length_firstn, <- (Permutation_length Hp).
  - rewrite length_firstn. lia.
Qed.

Lemma list_sessions_sorted_and_bounded_witness :
  exists items : list dict,
    fst (list_sessions example_runtime (Some 1000%Z) world_busy) =
      Ok (map (to_str_id example_runtime) items) /\
    Sorted (descending "updated_at") items /\
    incl items (sessions_of world_busy) /\
    length items = Nat.min 100 1 /\
    (length items <= 100)%nat.
Proof.
  exact (@list_sessions_sorted_and_bounded example_runtime 1000%Z world_busy _
           eq_refl eq_refl).
Defined.

(** X11: on a configured store whose query succeeds, [get_messages] returns
    stored messages of the given session only, serialised, oldest first;
    their number is the smaller of [max(1, min(limit, 500))] and the number
    of stored messages of that session. *)
Theorem get_messages_of_session_sorted
    (rt : Runtime) (sid : pystr) (limit : Z) (w : World) (d : Database) :
  db w = Some d ->
  store_fails w (store_calls w) = false ->
  exists items : list dict,
    fst (get_messages rt sid (Some limit) w) = Ok (map (to_str_id rt) items) /\
    Sorted (ascending "created_at") items /\
    (forall m : dict, In m items ->
       In m (message d) /\
       dict_get "session_id" m = Some (VStr sid) /\
       dict_get "session_id" (to_str_id rt m) = Some (VStr sid)) /\
    length items =
      Nat.min (Z.to_nat (Z.max 1 (Z.min limit 500)))
        (length (filter (session_id_is sid) (message d))).
Proof.
  intros Hdb F.
  destruct (cursor_sort_ascending "created_at"
              (filter (session_id_is sid) (message d))) as [Hs Hp].
  eexists. split; [exact (get_messages_run rt sid limit w Hdb F)|].
  split; [now apply sorted_firstn|]. split.
  - intros m Hm. apply firstn_In in Hm.
    apply (Permutation_in _ (Permutation_sym Hp)) in Hm.
    apply filter_In in Hm. destruct Hm as [Hin Hsid].
    apply session_id_is_true in Hsid. split; [exact Hin|]. split; [exact Hsid|].
    rewrite dict_get_to_str_id by discriminate. now rewrite Hsid.
  - now rewrite length_firstn, <- (Permutation_length Hp).
Qed.

Lemma get_messages_of_session_sorted_witness :
  exists items : list dict,
    fst (get_messages example_runtime (lit "other") (Some 0%Z) world_busy) =
      Ok (map (to_str_id example_runtime) items) /\
    Sorted (ascending "created_at") items /\
    (forall m : dict, In m items ->
       In m (messages_of world_busy) /\
       dict_get "session_id" m = Some (VStr (lit "other")) /\
       dict_get "session_id" (to_str_id example_runtime m) =
         Some (VStr (lit "other"))) /\
    length items = Nat.min 1 1.
Proof.
  exact (@get_messages_of_session_sorted example_runtime (lit "other") 0%Z
           world_busy _ eq_refl eq_refl).
Defined.

(** ** How the endpoints compose *)

Lemma api_create_session_run (rt : Runtime) (t : pystr) (w : World) (d : Database) :
  db w = Some d ->
  store_fails w (store_calls w) = false ->
  (1 <= len t <= 200)%Z ->
  let id := new_oid w (store_calls w) in
  let doc := session_doc t (utc_now w (clock_reads w)) id in
  api_create_session rt t w =
    (Ok [("id", VStr (oid_str rt id)); ("title", VStr (strip t))]%string,
     {| db := Some {| studysession := studysession d ++ [doc];
                      message := message d |};
        utc_now := utc_now w; clock_reads := S (clock_reads w);
        store_fails := store_fails w; new_oid := new_oid w;
        store_calls := S (store_calls w) |}).
Proof.
  intros Hdb F Hl id doc. subst id doc.
  destruct w as [dbh clock reads fails oids calls]; simpl in *. subst dbh.
  unfold api_create_session, CreateSessionRequest_validate, bind at 1, lift.
  destruct (Z.leb_spec 1 (len t)); [|lia].
  destruct (Z.leb_spec (len t) 200); [|lia]. simpl.
  unfold create_session, bind, require_db, now_utc, insert_one_studysession,
    store_call, dict_index, ret.
  simpl. rewrite F. reflexivity.
Qed.

(** X12: a session just created is listed.  When the title is valid, the
    store accepts the insert and answers the query, and the limit leaves room
    for all sessions, the listing made right after holds the new session, with
    the identifier and the title that the creation returned. *)
Theorem created_session_is_listed
    (rt : Runtime) (t : pystr) (limit : Z) (w : World) (d : Database) :
  db w = Some d ->
  store_fails w (store_calls w) = false ->
  store_fails w (S (store_calls w)) = false ->
  (1 <= len t <= 200)%Z ->
  (Z.of_nat (length (studysession d)) < Z.max 1 (Z.min limit 100))%Z ->
  let id := VStr (oid_str rt (new_oid w (store_calls w))) in
  fst (api_create_session rt t w) =
    Ok [("id", id); ("title", VStr (strip t))]%string /\
  exists (listing : list dict) (s : dict),
    fst (list_sessions rt (Some limit) (snd (api_create_session rt t w))) =
      Ok listing /\
    In s listing /\
    dict_get "id" s = Some id /\
    dict_get "title" s = Some (VStr (strip t)) /\
    dict_get "_id" s = None.
Proof.
  intros Hdb F1 F2 Hl Hroom id. subst id.
  rewrite (api_create_session_run rt t w Hdb F1 Hl). simpl fst. simpl snd.
  split; [reflexivity|].
  set (doc := session_doc t (utc_now w (clock_reads w)) (new_oid w (store_calls w))).
  set (w' := {| db := _ |}).
  assert (Hrun := @list_sessions_run rt limit w' _ eq_refl F2).
  simpl studysession in Hrun.
  destruct (cursor_sort_descending "updated_at" (studysession d ++ [doc])) as [_ Hp].
  rewrite firstn_all2 in Hrun.
  2:{ rewrite <- (Permutation_length Hp), length_app. simpl. lia. }
  eexists _, (to_str_id rt doc). split; [exact Hrun|]. split.
  - apply in_map. apply (Permutation_in _ Hp). apply in_or_app. right. now left.
  - repeat split.
Qed.

Lemma created_session_is_listed_witness :
  exists (listing : list dict) (s : dict),
    fst (list_sessions example_runtime (Some 20%Z)
           (snd (api_create_session example_runtime (lit " Optics ") world_busy))) =
      Ok listing /\
    In s listing /\
    dict_get "id" s = Some (VStr (lit "00000000000000000000006b")) /\
    dict_get "title" s = Some (VStr (lit "Optics")) /\
    dict_get "_id" s = None.
Proof.
  refine (proj2 (@created_session_is_listed example_runtime (lit " Optics ") 20%Z
                   world_busy _ eq_refl eq_refl eq_refl _ _)).
  - vm_compute. split; discriminate.
  - vm_compute. reflexivity.
Defined.

Lemma post_message_after (rt : Runtime) (sid : pystr) (req : PostMessageRequest)
    (w : World) (d : Database) :
  db w = Some d ->
  store_fails w (store_calls w) = false ->
  store_fails w (S (store_calls w)) = false ->
  let k := store_calls w in
  let n := clock_reads w in
  let u := user_doc sid (content req) (utc_now w n) (new_oid w k) in
  let a := asst_doc sid (content req) (utc_now w (S n)) (utc_now w (S (S n)))
             (new_oid w (S k)) in
  let w' := snd (post_message rt sid req w) in
  fst (post_message rt sid req w) = Ok [to_str_id rt u; to_str_id rt a] /\
  store_fails w' = store_fails w /\
  utc_now w' = utc_now w /\
  (2 + k <= store_calls w' <= 3 + k)%nat /\
  exists ss : list dict,
    db w' = Some {| studysession := ss; message := message d ++ [u; a] |} /\
    ss = match oid_parse rt sid with
         | Some oid =>
             if store_fails w (S (S k)) then studysession d
             else set_first oid "updated_at"
                    (VDatetime (utc_now w (S (S (S n))))) (studysession d)
         | None => studysession d
         end.
Proof.
  intros Hdb F1 F2 k n u a w'. subst k n u a w'.
  destruct w as [dbh clock reads fails oids calls]; simpl in *. subst dbh.
  unfold post_message, touch_session, try_pass, is_valid, ObjectId_of,
    update_one_studysession, bind, require_db, now_utc, insert_one_message,
    store_call, ret, raise.
  simpl. rewrite F1. simpl. rewrite F2. simpl.
  destruct (oid_parse rt sid) as [oid|]; simpl.
  - destruct (fails (S (S calls))) eqn:F3; simpl;
      rewrite <- app_assoc; simpl;
      (split; [reflexivity|]); (split; [reflexivity|]); (split; [reflexivity|]);
      (split; [lia|]); eexists; split; reflexivity.
  - rewrite <- app_assoc. simpl. repeat split; try lia.
    eexists. split; reflexivity.
Qed.

Lemma filter_session_new (sid c : pystr) (t t1 t2 : datetime) (i j : ObjectId)
    (old : list dict) :
  filter (session_id_is sid) old = [] ->
  filter (session_id_is sid) (old ++ [user_doc sid c t i; asst_doc sid c t1 t2 j]) =
  [user_doc sid c t i; asst_doc sid c t1 t2 j].
Proof.
  intros H. rewrite filter_app, H. simpl.
  assert (E : session_id_is sid (user_doc sid c t i) = true)
    by now apply session_id_is_true.
  assert (E' : session_id_is sid (asst_doc sid c t1 t2 j) = true)
    by now apply session_id_is_true.
  now rewrite E, E'.
Qed.

(** X13: what a post stores can be read back.  For a session with no
    earlier message, when the store takes both inserts and answers the query,
    and the limit is at least 2, [get_messages] right after the post returns
    exactly two messages, and each message of the post's response, the
    user's and the assistant's, is among them with the same [id], session
    id, role and content.  Nothing is said of their dates or of their order,
    which rest on how the store keeps and compares dates. *)
Theorem posted_messages_are_retrieved
    (rt : Runtime) (sid c : pystr) (limit : Z) (w : World) (d : Database) :
  (1 <= len c)%Z ->
  db w = Some d ->
  store_fails w (store_calls w) = false ->
  store_fails w (S (store_calls w)) = false ->
  filter (session_id_is sid) (message d) = [] ->
  (2 <= limit)%Z ->
  let w' := snd (api_post_message rt sid c w) in
  store_fails w (store_calls w') = false ->
  exists (ur ar : dict) (listing : list dict),
    fst (api_post_message rt sid c w) = Ok [ur; ar] /\
    dict_get "role" ur = Some (VStr (lit "user")) /\
    dict_get "role" ar = Some (VStr (lit "assistant")) /\
    fst (get_messages rt sid (Some limit) w') = Ok listing /\
    length listing = 2%nat /\
    forall r : dict, In r [ur; ar] ->
      exists m : dict,
        In m listing /\
        dict_get "id" m = dict_get "id" r /\
        dict_get "session_id" m = dict_get "session_id" r /\
        dict_get "role" m = dict_get "role" r /\
        dict_get "content" m = dict_get "content" r.
Proof.
  intros Hl Hdb F1 F2 Hnew Hlim w' F3. subst w'.
  rewrite (api_post_message_valid rt sid c w Hl) in *.
  destruct (post_message_after rt sid {| content := c |} w Hdb F1 F2)
    as (Hres & Hf & _ & _ & ss & Hdb' & _).
  simpl content in *. rewrite Hres. rewrite <- Hf in F3.
  rewrite (get_messages_run rt sid limit _ Hdb' F3). simpl message.
  rewrite (filter_session_new _ _ _ _ _ _ _ _ Hnew).
  match goal with
  | |- context [cursor_sort "created_at" 1 [?x; ?y]] => set (u := x); set (a := y)
  end.
  destruct (cursor_sort_ascending "created_at" [u; a]) as [_ Hp].
  assert (Hlen : length (cursor_sort "created_at" 1 [u; a]) = 2%nat)
    by now rewrite <- (Permutation_length Hp).
  rewrite firstn_all2 by lia.
  exists (to_str_id rt u), (to_str_id rt a), (map (to_str_id rt) (cursor_sort "created_at" 1 [u; a])).
  split; [reflexivity|]. split; [reflexivity|]. split; [reflexivity|].
  split; [reflexivity|]. split; [now rewrite length_map|].
  intros r Hr. exists r. split; [|repeat split].
  destruct Hr as [<-|[<-|[]]]; apply in_map; apply (Permutation_in _ Hp);
    simpl; auto.
Qed.

Lemma posted_messages_are_retrieved_witness :
  exists (ur ar : dict) (listing : list dict),
    fst (api_post_message example_runtime example_session_id (lit " entropy")
           world_busy) = Ok [ur; ar] /\
    dict_get "role" ur = Some (VStr (lit "user")) /\
    dict_get "role" ar = Some (VStr (lit "assistant")) /\
    fst (get_messages example_runtime example_session_id (Some 2%Z)
           (snd (api_post_message example_runtime example_session_id
                   (lit " entropy") world_busy))) = Ok listing /\
    length listing = 2%nat /\
    forall r : dict, In r [ur; ar] ->
      exists m : dict,
        In m listing /\
        dict_get "id" m = dict_get "id" r /\
        dict_get "session_id" m = dict_get "session_id" r /\
        dict_get "role" m = dict_get "role" r /\
        dict_get "content" m = dict_get "content" r.
Proof.
  eapply (@posted_messages_are_retrieved example_runtime example_session_id
            (lit " entropy") 2%Z world_busy);
    try reflexivity; vm_compute; discriminate.
Defined.

Lemma set_first_hits (oid : ObjectId) (k : string) (v : value) (c : list dict) (s : dict) :
  k <> "_id"%string ->
  In s c ->
  dict_get "_id" s = Some (VObjectId oid) ->
  exists s' : dict,
    In s' (set_first oid k v c) /\
    dict_get "_id" s' = Some (VObjectId oid) /\
    dict_get k s' = Some v.
Proof.
  intros Hk. induction c as [|doc r IH]; simpl; [tauto|].
  intros [->|Hin] Hid.
  - rewrite Hid, value_eqb_refl. exists (dict_set k v s). split; [now left|].
    split; [|apply dict_get_set_same].
    rewrite dict_get_set_other; [exact Hid | congruence].
  - destruct (dict_get "_id" doc) as [id|] eqn:E.
    + destruct (value_eqb id (VObjectId oid)) eqn:Ev.
      * apply value_eqb_eq in Ev. subst id.
        exists (dict_set k v doc). split; [now left|].
        split; [|apply dict_get_set_same].
        rewrite dict_get_set_other; [exact E | congruence].
      * destruct (IH Hin Hid) as (s' & H1 & H2). exists s'. split; [now right | exact H2].
    + destruct (IH Hin Hid) as (s' & H1 & H2). exists s'. split; [now right | exact H2].
Qed.

(** X14: a post refreshes its session.  When the session id is well formed
    and names a stored session, and the store takes the two inserts and the
    update, the store afterwards holds a session with that identifier whose
    [updated_at] is the fourth clock reading of the call, the one made
    after both messages were stamped. *)
Theorem post_message_touches_session
    (rt : Runtime) (sid c : pystr) (w : World) (d : Database) (oid : ObjectId) :
  (1 <= len c)%Z ->
  db w = Some d ->
  store_fails w (store_calls w) = false ->
  store_fails w (S (store_calls w)) = false ->
  store_fails w (S (S (store_calls w))) = false ->
  oid_parse rt sid = Some oid ->
  (exists s : dict, In s (studysession d) /\ dict_get "_id" s = Some (VObjectId oid)) ->
  exists s' : dict,
    In s' (sessions_of (snd (api_post_message rt sid c w))) /\
    dict_get "_id" s' = Some (VObjectId oid) /\
    dict_get "updated_at" s' = Some (VDatetime (utc_now w (3 + clock_reads w))).
Proof.
  intros Hl Hdb F1 F2 F3 Hoid (s & Hin & Hid).
  rewrite (api_post_message_valid rt sid c w Hl).
  destruct (post_message_after rt sid {| content := c |} w Hdb F1 F2)
    as (_ & _ & _ & _ & ss & Hdb' & Hss).
  unfold sessions_of. rewrite Hdb'. simpl studysession.
  rewrite Hoid, F3 in Hss. subst ss.
  apply set_first_hits with (s := s); [discriminate | exact Hin | exact Hid].
Qed.

Lemma post_message_touches_session_witness :
  exists s' : dict,
    In s' (sessions_of (snd (api_post_message example_runtime
                               (lit "000000000000000000000009") (lit "heat") world_busy))) /\
    dict_get "_id" s' = Some (VObjectId 9%N) /\
    dict_get "updated_at" s' = Some (VDatetime 42%Z).
Proof.
  eapply (@post_message_touches_session example_runtime
            (lit "000000000000000000000009") (lit "heat") world_busy);
    try reflexivity.
  - vm_compute. discriminate.
  - eexists. split; [left; reflexivity | reflexivity].
Defined.

(** X15: the two inserts are not tied together.  When the store rejects the
    second insert, the call raises the store's error and the user message
    stays stored without its reply; when it rejects the first, nothing is
    stored.  In both cases the sessions are left as they were. *)
Theorem post_message_is_not_atomic
    (rt : Runtime) (sid c : pystr) (w : World) (d : Database) :
  (1 <= len c)%Z ->
  db w = Some d ->
  let w' := snd (api_post_message rt sid c w) in
  let u := user_doc sid c (utc_now w (clock_reads w)) (new_oid w (store_calls w)) in
  (store_fails w (store_calls w) = true ->
   fst (api_post_message rt sid c w) = Raise PyMongoError /\
   messages_of w' = message d /\ sessions_of w' = studysession d) /\
  (store_fails w (store_calls w) = false ->
   store_fails w (S (store_calls w)) = true ->
   fst (api_post_message rt sid c w) = Raise PyMongoError /\
   messages_of w' = message d ++ [u] /\ sessions_of w' = studysession d).
Proof.
  intros Hl Hdb w' u. subst w' u.
  rewrite (api_post_message_valid rt sid c w Hl).
  destruct w as [dbh clock reads fails oids calls]; simpl in *. subst dbh.
  unfold post_message, bind, require_db, now_utc, insert_one_message, store_call, ret.
  simpl. split.
  - intros F1. rewrite F1. simpl. repeat split.
  - intros F1 F2. rewrite F1. simpl. rewrite F2. simpl. repeat split.
Qed.

Lemma post_message_is_not_atomic_witness :
  let w := {| db := db world_empty; utc_now := ticking_clock; clock_reads := 0;
              store_fails := fun k => Nat.eqb k 1;
              new_oid := fun k => N.of_nat (S k); store_calls := 0 |} in
  fst (api_post_message example_runtime example_session_id (lit "entropy") w) =
    Raise PyMongoError /\
  messages_of (snd (api_post_message example_runtime example_session_id
                      (lit "entropy") w)) =
    [user_doc example_session_id (lit "entropy") 1700000000000000%Z 1%N] /\
  sessions_of (snd (api_post_message example_runtime example_session_id
                      (lit "entropy") w)) = [].
Proof.
  intros w.
  refine (proj2 (@post_message_is_not_atomic example_runtime example_session_id
                   (lit "entropy") w _ _ eq_refl) eq_refl eq_refl).
  vm_compute. discriminate.
Defined.

(** X16: content made of white space only, once accepted, is stored as the
    empty string, and the assistant's reply is the explanation of the empty
    topic. *)
Theorem whitespace_only_content_is_stored_empty
    (rt : Runtime) (sid c : pystr) (w : World) :
  forallb isspace c = true ->
  accepted rt sid c w = true ->
  exists u a : dict,
    messages_of (snd (api_post_message rt sid c w)) = messages_of w ++ [u; a] /\
    dict_get "content" u = Some (VStr []) /\
    dict_get "content" a = Some (VStr (generate_explanation [])).
Proof.
  intros Hsp H. destruct (accepted_run rt sid c w H) as (w' & Hrun & Hm).
  rewrite Hrun. simpl snd. eexists _, _. split; [exact Hm|].
  unfold user_doc, asst_doc. simpl.
  rewrite (generate_explanation_strip c), (strip_all_space c Hsp). split; reflexivity.
Qed.

Lemma whitespace_only_content_is_stored_empty_witness :
  exists u a : dict,
    messages_of (snd (api_post_message example_runtime example_session_id
                        (lit " \n ") world_empty)) = messages_of world_empty ++ [u; a] /\
    dict_get "content" u = Some (VStr []) /\
    dict_get "content" a = Some (VStr (generate_explanation [])).
Proof.
  apply (@whitespace_only_content_is_stored_empty example_runtime example_session_id
           (lit " \n ") world_empty); vm_compute; reflexivity.
Defined.

(** ** Size of an explanation *)

(** X17: the explanation is never empty, and its length is fixed by the
    length of the stripped topic alone: three times that length, for the
    topic in the header, the rule under it and the topic in the summary,
    plus the length of the explanation of the empty topic. *)
Theorem generate_explanation_length (topic : pystr) :
  len (generate_explanation topic) =
    (3 * len (strip topic) + len (generate_explanation []))%Z /\
  len (generate_explanation []) = 899%Z.
Proof.
  split; [|vm_compute; reflexivity].
  assert (E : len (generate_explanation []) = 899%Z) by (vm_compute; reflexivity).
  rewrite E. rewrite generate_explanation_unfold. unfold header_text, len.
  set (t := strip topic).
  assert (J : join (lit "\n\n") (explanation_sections t) =
              (lit "Quick summary\n- " ++ t ++
               lit " in one sentence: [A clear, simple definition].") ++
              lit "\n\n" ++ join (lit "\n\n") (tl (explanation_sections []))).
  { cbv [explanation_sections app join tl]. reflexivity. }
  rewrite J. rewrite !length_app, repeat_length.
  let n := eval vm_compute in
             (length (join (lit "\n\n") (tl (explanation_sections [])))) in
  change (length (join (lit "\n\n") (tl (explanation_sections [])))) with n.
  repeat match goal with
         | |- context [length (lit ?s)] =>
             let n := eval vm_compute in (length (lit s)) in
             change (length (lit s)) with n
         end.
  simpl length. lia.
Qed.

(** ** The diagnostic endpoint *)

Lemma test_database_cases (p : Process) (w : World) :
  (db w = None /\
   test_database p w =
     (Ok {| backend := check_mark ++ lit " Running";
            database := warning_sign ++ lit "  Available but not initialized";
            database_url :=
              Some (if truthy (getenv p "DATABASE_URL") then check_mark ++ lit " Set"
                    else cross_mark ++ lit " Not Set");
            database_name :=
              Some (if truthy (getenv p "DATABASE_NAME") then check_mark ++ lit " Set"
                    else cross_mark ++ lit " Not Set");
            connection_status := lit "Not Connected";
            collections := [] |}, w)) \/
  (db w <> None /\ store_fails w (store_calls w) = true /\
   fst (test_database p w) =
     Ok {| backend := check_mark ++ lit " Running";
           database := warning_sign ++ lit "  Connected but Error: " ++
                       firstn 50 (error_text p);
           database_url :=
             Some (if truthy (getenv p "DATABASE_URL") then check_mark ++ lit " Set"
                   else cross_mark ++ lit " Not Set");
           database_name :=
             Some (if truthy (getenv p "DATABASE_NAME") then check_mark ++ lit " Set"
                   else cross_mark ++ lit " Not Set");
           connection_status := lit "Connected";
           collections := [] |}) \/
  (db w <> None /\ store_fails w (store_calls w) = false /\
   fst (test_database p w) =
     Ok {| backend := check_mark ++ lit " Running";
           database := check_mark ++ lit " Connected & Working";
           database_url :=
             Some (if truthy (getenv p "DATABASE_URL") then check_mark ++ lit " Set"
                   else cross_mark ++ lit " Not Set");
           database_name :=
             Some (if truthy (getenv p "DATABASE_NAME") then check_mark ++ lit " Set"
                   else cross_mark ++ lit " Not Set");
           connection_status := lit "Connected";
           collections := firstn 10 (collection_names p) |}).
Proof.
  unfold test_database, list_collection_names, store_call.
  destruct (db w) as [d|] eqn:Hdb.
  - right. destruct (store_fails w (store_calls w)) eqn:F.
    + left. split; [discriminate|]. split; reflexivity.
    + right. split; [discriminate|]. split; reflexivity.
  - left. split; reflexivity.
Qed.

(** X18: whatever the store, the diagnostic endpoint returns a response,
    and its [database_url] and [database_name] fields tell only whether the
    two environment variables are set to a non-empty value; they are never
    empty, and the name of the database is never what is reported. *)
Theorem test_database_reports_environment_only (p : Process) (w : World) :
  exists r : Diagnostics,
    fst (test_database p w) = Ok r /\
    database_url r =
      Some (if truthy (getenv p "DATABASE_URL") then check_mark ++ lit " Set"
            else cross_mark ++ lit " Not Set") /\
    database_name r =
      Some (if truthy (getenv p "DATABASE_NAME") then check_mark ++ lit " Set"
            else cross_mark ++ lit " Not Set").
Proof.
  destruct (test_database_cases p w) as [[_ H]|[(_ & _ & H)|(_ & _ & H)]];
    rewrite H; eexists; repeat split.
Qed.

(** X19: the three reports of the diagnostic endpoint.  Without a store it
    says so and reports not connected; with a store whose listing fails it
    reports connected, no collection, and the error text cut to 50
    characters; with a store that answers it reports the first ten collection
    names. *)
Theorem test_database_status (p : Process) (w : World) :
  exists r : Diagnostics,
    fst (test_database p w) = Ok r /\
    backend r = check_mark ++ lit " Running" /\
    (db w = None ->
     database r = warning_sign ++ lit "  Available but not initialized" /\
     connection_status r = lit "Not Connected" /\ collections r = []) /\
    (db w <> None -> store_fails w (store_calls w) = true ->
     database r = warning_sign ++ lit "  Connected but Error: " ++
                  firstn 50 (error_text p) /\
     connection_status r = lit "Connected" /\ collections r = []) /\
    (db w <> None -> store_fails w (store_calls w) = false ->
     database r = check_mark ++ lit " Connected & Working" /\
     connection_status r = lit "Connected" /\
     collections r = firstn 10 (collection_names p)).
Proof.
  destruct (test_database_cases p w)
    as [[Hn H]|[(Hs & F & H)|(Hs & F & H)]];
    rewrite H; eexists; (split; [reflexivity|]); simpl;
    (split; [reflexivity|]); repeat split; try congruence; try tauto.
Qed.

(** X20: the bounds of the diagnostic response: at most ten collection
    names, a prefix of the store's listing; a [database] text of at most 75
    characters, whatever the length of the error text; and never the text
    [Not Available] the response starts with. *)
Theorem test_database_bounds (p : Process) (w : World) :
  exists r : Diagnostics,
    fst (test_database p w) = Ok r /\
    (length (collections r) <= 10)%nat /\
    (exists rest : list pystr, collection_names p = collections r ++ rest) /\
    (length (database r) <= 75)%nat /\
    database r <> cross_mark ++ lit " Not Available".
Proof.
  destruct (test_database_cases p w)
    as [[Hn H]|[(Hs & F & H)|(Hs & F & H)]];
    rewrite H; eexists; (split; [reflexivity|]); cbn [collections database].
  - split; [simpl; lia|]. split; [now exists (collection_names p)|].
    split; [vm_compute; lia | vm_compute; discriminate].
  - split; [simpl; lia|]. split; [now exists (collection_names p)|]. split.
    + rewrite !length_app, length_firstn.
      change (length warning_sign) with 2%nat.
      change (length (lit "  Connected but Error: ")) with 23%nat. lia.
    + intros E. apply (f_equal (hd 0%N)) in E. vm_compute in E. discriminate.
  - split; [rewrite length_firstn; lia|].
    split; [exists (skipn 10 (collection_names p)); now rewrite firstn_skipn|].
    split; [vm_compute; lia | vm_compute; discriminate].
Qed.

Lemma test_database_status_witness :
  exists r : Diagnostics,
    fst (test_database example_process world_store_down) = Ok r /\
    database r =
      warning_sign ++ lit "  Connected but Error: " ++
      lit "connection refused; connection refused; connection" /\
    connection_status r = lit "Connected" /\
    collections r = [].
Proof.
  destruct (test_database_status example_process world_store_down)
    as (r & H & _ & _ & Hf & _).
  exists r. split; [exact H|].
  apply Hf; [discriminate | reflexivity].
Defined.

(** ** The response of a post *)

(** X21: the response of an accepted post holds the two messages as
    stored, serialised: each carries under [id] the text of the identifier
    the store gave it and no [_id], its role, its content, the session id as
    given, and its dates as ISO text. *)
Theorem post_message_response (rt : Runtime) (sid c : pystr) (w : World) :
  accepted rt sid c w = true ->
  let k := store_calls w in
  let n := clock_reads w in
  exists ur ar : dict,
    fst (api_post_message rt sid c w) = Ok [ur; ar] /\
    (dict_get "id" ur = Some (VStr (oid_str rt (new_oid w k))) /\
     dict_get "id" ar = Some (VStr (oid_str rt (new_oid w (S k))))) /\
    (dict_get "_id" ur = None /\ dict_get "_id" ar = None) /\
    (dict_get "session_id" ur = Some (VStr sid) /\
     dict_get "session_id" ar = Some (VStr sid)) /\
    (dict_get "role" ur = Some (VStr (lit "user")) /\
     dict_get "role" ar = Some (VStr (lit "assistant"))) /\
    (dict_get "content" ur = Some (VStr (strip c)) /\
     dict_get "content" ar = Some (VStr (generate_explanation c))) /\
    (dict_get "created_at" ur = Some (VStr (isoformat rt (utc_now w n))) /\
     dict_get "updated_at" ur = Some (VStr (isoformat rt (utc_now w n)))) /\
    (dict_get "created_at" ar = Some (VStr (isoformat rt (utc_now w (S n)))) /\
     dict_get "updated_at" ar = Some (VStr (isoformat rt (utc_now w (S (S n)))))).
Proof.
  intros H k n. destruct (accepted_run rt sid c w H) as (w' & Hrun & _).
  rewrite Hrun. simpl fst. eexists _, _. split; [reflexivity|].
  repeat split.
Qed.

Lemma post_message_response_witness :
  exists ur ar : dict,
    fst (api_post_message example_runtime example_session_id (lit " entropy")
           world_empty) = Ok [ur; ar] /\
    dict_get "id" ur = Some (VStr (lit "000000000000000000000001")) /\
    dict_get "id" ar = Some (VStr (lit "000000000000000000000002")) /\
    dict_get "content" ur = Some (VStr (lit "entropy")) /\
    dict_get "created_at" ar = Some (VStr (lit "1700000000000001")).
Proof.
  destruct (@post_message_response example_runtime example_session_id
              (lit " entropy") world_empty)
    as (ur & ar & H & [H1 H2] & _ & _ & _ & [H3 _] & _ & [H4 _]).
  - vm_compute. reflexivity.
  - exists ur, ar. repeat split; assumption.
Defined.
